(** * Video concatenation with transitions: a model of
      [services/v1/video/concatenate.py]

    The module under study builds an ffmpeg filter graph through the
    ffmpeg-python bindings and hands it to the ffmpeg executable.  The model
    has three layers:

    - [FFmpeg]: the part of the ffmpeg-python API the source calls
      ([ffmpeg.input], [stream.video], [stream.filter], [ffmpeg.filter],
      [ffmpeg.concat], [ffmpeg.probe]) as graph-building functions over an
      inductive type of nodes, together with the running time the documented
      ffmpeg filters give to each node of such a graph;
    - the pairwise builders and the chain composer of the source, in an error
      monad ([result]);
    - the top-level job, in a state-and-error monad over a [world] made of the
      files present on disk and the trace of external calls.

    Python floats are read as exact rationals ([Q]); rounding is not
    modelled.  Console output ([print]) is not modelled. *)

From Stdlib Require Import QArith Qminmax Lqa ZArith String Ascii DecimalString.
From stdpp Require Import base gmap strings list.

Local Open Scope string_scope.
Local Open Scope list_scope.

(** ** Python values, exceptions and the error monad *)

(** The exceptions the module, or the library calls it makes, can raise. *)
Inductive exn : Type :=
| ValueError (msg : string)
| AttributeError
| TypeError
| IndexError
| ZeroDivisionError
| FFmpegError          (* [ffmpeg.Error], from [run] *)
| ProbeError           (* whatever lines 128-129 raise: [ffmpeg.Error] from
                          [ffmpeg.probe], [KeyError] or [ValueError] from
                          reading the duration out of its answer *)
| DownloadError        (* whatever [download_file] raises *)
| FileNotFoundError.

Inductive result (A : Type) : Type :=
| Ok (a : A)
| Err (e : exn).
Arguments Ok {A} a.
Arguments Err {A} e.

Definition rbind {A B : Type} (m : result A) (k : A -> result B) : result B :=
  match m with
  | Ok a => k a
  | Err e => Err e
  end.

Declare Scope result_scope.
Delimit Scope result_scope with result.
Notation "x <- m ;; k" := (rbind m (fun x => k))
  (at level 90, m at next level, right associativity) : result_scope.

Definition is_ok {A : Type} (r : result A) : bool :=
  match r with Ok _ => true | Err _ => false end.

(** Keyword-argument values: the source passes strings, ints and floats. *)
Inductive pyval : Type :=
| VStr (s : string)
| VInt (z : Z)
| VFloat (q : Q).

(** Python truthiness of such a value ([if filename:]). *)
Definition truthy (v : pyval) : bool :=
  match v with
  | VStr s => negb (String.eqb s EmptyString)
  | VInt z => negb (Z.eqb z 0)
  | VFloat q => negb (Qeq_bool q 0)
  end.

(** A [**kwargs] dictionary, in insertion order. *)
Fixpoint kw_get (k : string) (kw : list (string * pyval)) : option pyval :=
  match kw with
  | [] => None
  | (k', v) :: kw' => if String.eqb k k' then Some v else kw_get k kw'
  end.

(** [kwargs[k] = v]: overwrite in place, or append a new key. *)
Fixpoint kw_set (k : string) (v : pyval) (kw : list (string * pyval))
  : list (string * pyval) :=
  match kw with
  | [] => [(k, v)]
  | (k', v') :: kw' =>
      if String.eqb k k' then (k, v) :: kw' else (k', v') :: kw_set k v kw'
  end.

(** ** The ffmpeg-python graph API used by the source *)

Module FFmpeg.

(** A node of the graph under construction.  A stream is an outgoing edge
    of a node, with an optional selector (["v"] or ["a"]); the second
    component of each incoming pair is that selector. *)
#[warnings="-register-all"] Inductive node : Type :=
| InputNode (kw : list (string * pyval))
| FilterNode (name : string) (incoming : list (node * option string))
             (kw : list (string * pyval)).

Definition stream : Type := (node * option string)%type.

Definition node_kwargs (n : node) : list (string * pyval) :=
  match n with
  | InputNode kw => kw
  | FilterNode _ _ kw => kw
  end.

(** What a Python variable of the source can hold: a stream, or the
    [{'video': ..., 'audio': ...}] dict four of the builders return. *)
Inductive pyobj : Type :=
| PStream (s : stream)
| PDict (video audio : stream).

(** [ffmpeg.input(filename, **kwargs)]: the file name is stored under the
    key ['filename'] of the node's kwargs. *)
Definition input (filename : string) (kw : list (string * pyval)) : stream :=
  (InputNode (kw_set "filename" (VStr filename) kw), None).

(** [stream[index]]: refused on a stream that already has a selector. *)
Definition getitem (s : stream) (index : string) : result stream :=
  match snd s with
  | Some _ => Err (ValueError "Stream already has a selector")
  | None => Ok (fst s, Some index)
  end.

(** The [.video] and [.audio] attributes.  A dict has neither. *)
Definition video (x : pyobj) : result stream :=
  match x with
  | PStream s => getitem s "v"
  | PDict _ _ => Err AttributeError
  end.

Definition audio (x : pyobj) : result stream :=
  match x with
  | PStream s => getitem s "a"
  | PDict _ _ => Err AttributeError
  end.

(** [stream.filter(name, **kwargs)] and [ffmpeg.filter([s1, s2], name,
    **kwargs)]: a new filter node over the given streams, and its
    (unselected) output. *)
Definition filter (incoming : list stream) (name : string)
           (kw : list (string * pyval)) : stream :=
  (FilterNode name incoming kw, None).

Definition as_stream (x : pyobj) : result stream :=
  match x with
  | PStream s => Ok s
  | PDict _ _ => Err TypeError
  end.

Fixpoint as_streams (xs : list pyobj) : result (list stream) :=
  match xs with
  | [] => Ok []
  | x :: xs' =>
      (s <- as_stream x ;;
       ss <- as_streams xs' ;;
       Ok (s :: ss))%result
  end.

Definition as_int (v : pyval) : result Z :=
  match v with
  | VInt z => Ok z
  | _ => Err TypeError
  end.

(** [ffmpeg.concat(s1, ..., sk, **kwargs)].  The library reads the number of
    video and audio streams per segment from [v] (default 1) and [a]
    (default 0), refuses a stream count that is not a multiple of [v + a],
    stores the number of segments [n = len(streams) / (v + a)] in the
    kwargs, and builds the filter node, whose constructor refuses an
    incoming object that is not a stream. *)
Definition concat (streams : list pyobj) (kw : list (string * pyval))
  : result stream :=
  (video_stream_count <- as_int (default (VInt 1) (kw_get "v" kw)) ;;
   audio_stream_count <- as_int (default (VInt 0) (kw_get "a" kw)) ;;
   let stream_count := (video_stream_count + audio_stream_count)%Z in
   let len := Z.of_nat (length streams) in
   if Z.eqb stream_count 0 then Err ZeroDivisionError
   else if negb (Z.eqb (len mod stream_count) 0) then
     Err (ValueError "Expected concat input streams to have length multiple of v + a")
   else
     let kw' := kw_set "n" (VInt (len / stream_count)) kw in
     ss <- as_streams streams ;;
     Ok (filter ss "concat" kw'))%result.

(** [ffmpeg.output(s1, ..., sk, filename, **kwargs)]: the output node handed
    to [run]. *)
Record output_node : Type := Output {
  out_streams : list stream;
  out_kwargs : list (string * pyval)
}.

Definition output (streams : list stream) (filename : string)
           (kw : list (string * pyval)) : output_node :=
  Output streams (kw_set "filename" (VStr filename) kw).

End FFmpeg.

(** ** Running time of a graph node

    The running time of a stream is decided by the external media engine,
    not by [concatenate.py]; the definitions of this module state, filter by
    filter, the rules of the ffmpeg filter documentation.  A filter given an
    option it does not have makes the engine refuse the whole graph.  An
    input node lasts what [probe] reports for its file; [None] stands for a
    graph that is refused or that the rules do not cover. *)

Module Engine.
Import FFmpeg.

Definition as_Q (v : pyval) : option Q :=
  match v with
  | VInt z => Some (inject_Z z)
  | VFloat q => Some q
  | VStr _ => None
  end.

Definition kw_Q (k : string) (kw : list (string * pyval)) : option (option Q) :=
  match kw_get k kw with
  | None => Some None
  | Some v => q ← as_Q v; Some (Some q)
  end.

(** The options of the filters the source uses, by name. *)
Definition filter_options (name : string) : list string :=
  if String.eqb name "trim" then
    ["start"; "end"; "start_pts"; "end_pts"; "duration"; "start_frame";
     "end_frame"; "starti"; "endi"; "durationi"]
  else if String.eqb name "atrim" then
    ["start"; "end"; "start_pts"; "end_pts"; "duration"; "start_sample";
     "end_sample"; "starti"; "endi"; "durationi"]
  else if String.eqb name "fade" then
    ["type"; "t"; "start_frame"; "s"; "nb_frames"; "n"; "alpha";
     "start_time"; "st"; "duration"; "d"; "color"; "c"]
  else if String.eqb name "afade" then
    ["type"; "t"; "start_sample"; "ss"; "nb_samples"; "ns"; "start_time";
     "st"; "duration"; "d"; "curve"; "c"; "silence"; "unity"]
  else if String.eqb name "overlay" then
    ["x"; "y"; "eof_action"; "eval"; "shortest"; "format"; "repeatlast";
     "alpha"]
  else if String.eqb name "amix" then
    ["inputs"; "duration"; "dropout_transition"; "weights"; "normalize"]
  else if String.eqb name "concat" then
    ["n"; "v"; "a"; "unsafe"]
  else [].

(** Is the filter [name] given an option it does not have?  ([trim] and
    [atrim] call the start of the kept section [start]; [start_time] is an
    option of [fade] and [afade] only.) *)
Definition has_unknown_option (name : string) (kw : list (string * pyval))
  : bool :=
  existsb (fun o => negb (existsb (String.eqb (fst o)) (filter_options name)))
          kw.

(** [trim] and [atrim] keep the section of the input from [start]
    (default 0) to [end] (default: the end of the input), cut down to at
    most [duration].  Their other options count frames, samples or
    timestamps and are not covered. *)
Definition trim_duration (kw : list (string * pyval)) (t : Q) : option Q :=
  if forallb (fun o => String.eqb (fst o) "start" || String.eqb (fst o) "end"
                       || String.eqb (fst o) "duration") kw
  then
    start ← kw_Q "start" kw;
    stop ← kw_Q "end" kw;
    dur ← kw_Q "duration" kw;
    let avail :=
      Qmax 0 (Qmin t (default t stop) - Qmax 0 (default 0%Q start)) in
    Some match dur with
         | Some d => Qmin avail (Qmax 0 d)
         | None => avail
         end
  else None.

Definition Qsum (l : list Q) : Q := foldr Qplus 0%Q l.
Definition Qmax_list (l : list Q) : Q :=
  match l with
  | [] => 0%Q
  | t :: l' => foldr Qmax t l'
  end.
Definition Qmin_list (l : list Q) : Q :=
  match l with
  | [] => 0%Q
  | t :: l' => foldr Qmin t l'
  end.

(** The first [n] groups of [k] consecutive elements of [l]. *)
Fixpoint segments {A : Type} (n k : nat) (l : list A) : list (list A) :=
  match n with
  | O => []
  | S n' => take k l :: segments n' k (drop k l)
  end.

(** [concat] takes [n] segments of [v + a] streams each and plays the
    segments one after the other; a segment lasts as long as its longest
    stream. *)
Definition concat_duration (kw : list (string * pyval)) (ds : list Q)
  : option Q :=
  match kw_get "v" kw, kw_get "a" kw, kw_get "n" kw with
  | Some (VInt v), Some (VInt a), Some (VInt n) =>
      Some (Qsum (map Qmax_list (segments (Z.to_nat n) (Z.to_nat (v + a)) ds)))
  | _, _, _ => None
  end.

(** [amix] ends with its shortest input, with its first input, or (the
    default) with its longest input, as its [duration] option says. *)
Definition amix_duration (kw : list (string * pyval)) (ds : list Q)
  : option Q :=
  match kw_get "duration" kw with
  | Some (VStr policy) =>
      if String.eqb policy "shortest" then Some (Qmin_list ds)
      else if String.eqb policy "first" then head ds
      else Some (Qmax_list ds)
  | _ => Some (Qmax_list ds)
  end.

(** [fade] and [afade] change levels, not length; [overlay], with its
    default [shortest=0], runs until the longer of its two inputs ends. *)
Definition filter_duration (name : string) (kw : list (string * pyval))
           (ds : list Q) : option Q :=
  if has_unknown_option name kw then None
  else if String.eqb name "trim" || String.eqb name "atrim" then
    match ds with [t] => trim_duration kw t | _ => None end
  else if String.eqb name "fade" || String.eqb name "afade" then
    match ds with [t] => Some t | _ => None end
  else if String.eqb name "overlay" then
    match ds with [t1; t2] => Some (Qmax t1 t2) | _ => None end
  else if String.eqb name "amix" then amix_duration kw ds
  else if String.eqb name "concat" then concat_duration kw ds
  else None.

Section Duration.
Variable probe : string -> option Q.

Fixpoint node_duration (n : node) : option Q :=
  match n with
  | InputNode kw =>
      match kw_get "filename" kw with
      | Some (VStr f) => probe f
      | _ => None
      end
  | FilterNode name incoming kw =>
      ds ← (fix go (l : list (node * option string)) : option (list Q) :=
              match l with
              | [] => Some []
              | (m, _) :: l' =>
                  d ← node_duration m; r ← go l'; Some (d :: r)
              end) incoming;
      filter_duration name kw ds
  end.

Definition stream_duration (s : stream) : option Q := node_duration (fst s).

(** [s] runs for [t] seconds. *)
Definition has_duration (s : stream) (t : Q) : Prop :=
  match stream_duration s with
  | Some t' => t' == t
  | None => False
  end.

End Duration.

(** Does the engine refuse the graph above a node, because one of its
    filters is given an option it does not have? *)
Fixpoint engine_refuses (n : node) : bool :=
  match n with
  | InputNode _ => false
  | FilterNode name incoming kw =>
      has_unknown_option name kw
      || (fix go (l : list (node * option string)) : bool :=
            match l with
            | [] => false
            | (m, _) :: l' => engine_refuses m || go l'
            end) incoming
  end.


End Engine.

(** ** The pairwise transition builders *)

Import FFmpeg.
Local Open Scope result_scope.

(** A transition object [{'type': ..., 'duration': ...}]; either key may be
    absent. *)
Record transition : Type := Transition {
  t_type : option string;
  t_duration : option Q
}.

(** [{'type': 'none', 'duration': 1.0}] *)
Definition default_transition : transition :=
  Transition (Some "none") (Some 1%Q).

Section Builders.

(** [ffmpeg.probe(filename)] followed by
    [float(probe['format']['duration'])]; [None] when either raises, be it
    [ffmpeg.Error] in the probe or [KeyError] or [ValueError] on a file
    without a readable duration. *)
Variable probe : string -> option Q.

Definition _get_video_duration (input_stream : pyobj) : result Q :=
  match input_stream with
  | PStream s =>
      (* hasattr(input_stream, 'node') and hasattr(input_stream.node, 'kwargs') *)
      match kw_get "filename" (node_kwargs (fst s)) with
      | Some filename =>
          if truthy filename then
            match filename with
            | VStr f =>
                match probe f with
                | Some d => Ok d
                | None => Err ProbeError
                end
            | _ => Err TypeError
            end
          else Ok 0%Q
      | None => Ok 0%Q
      end
  | PDict _ _ => Ok 0%Q
  end.

(** Lines 151-177 of the source: the body of [_crossfade_transition] once
    [v1_duration] is known. *)
Definition crossfade_graph (v1_duration : Q) (video1 video2 : pyobj)
           (duration : Q) : result pyobj :=
  let offset := (v1_duration - duration)%Q in
  (* Trim and fade out first video *)
  v1 <- video video1 ;;
  let v1_trimmed := filter [v1] "trim" [("duration", VFloat v1_duration)] in
  let v1_faded :=
    filter [v1_trimmed] "fade"
           [("type", VStr "out"); ("start_time", VFloat offset);
            ("duration", VFloat duration)] in
  a1 <- audio video1 ;;
  let a1_trimmed := filter [a1] "atrim" [("duration", VFloat v1_duration)] in
  let a1_faded :=
    filter [a1_trimmed] "afade"
           [("type", VStr "out"); ("start_time", VFloat offset);
            ("duration", VFloat duration)] in
  (* Trim and fade in second video (take only the transition duration) *)
  v2 <- video video2 ;;
  let v2_trimmed :=
    filter [v2] "trim" [("start_time", VInt 0); ("duration", VFloat duration)] in
  let v2_faded :=
    filter [v2_trimmed] "fade"
           [("type", VStr "in"); ("start_time", VInt 0);
            ("duration", VFloat duration)] in
  a2 <- audio video2 ;;
  let a2_trimmed :=
    filter [a2] "atrim" [("start_time", VInt 0); ("duration", VFloat duration)] in
  let a2_faded :=
    filter [a2_trimmed] "afade"
           [("type", VStr "in"); ("start_time", VInt 0);
            ("duration", VFloat duration)] in
  (* Get remaining part of second video *)
  v2' <- video video2 ;;
  let v2_remaining := filter [v2'] "trim" [("start_time", VFloat duration)] in
  a2' <- audio video2 ;;
  let a2_remaining := filter [a2'] "atrim" [("start_time", VFloat duration)] in
  (* Overlay the faded portions *)
  let v_overlay := filter [v1_faded; v2_faded] "overlay" [] in
  let a_mix :=
    filter [a1_faded; a2_faded] "amix"
           [("inputs", VInt 2); ("duration", VStr "shortest")] in
  (* Concatenate with remaining second video *)
  v_final <- concat [PStream v_overlay; PStream v2_remaining]
                    [("v", VInt 1); ("a", VInt 0)] ;;
  a_final <- concat [PStream a_mix; PStream a2_remaining]
                    [("v", VInt 0); ("a", VInt 1)] ;;
  Ok (PDict v_final a_final).

Definition _crossfade_transition (video1 video2 : pyobj) (duration : Q)
  : result pyobj :=
  v1_duration <- _get_video_duration video1 ;;
  crossfade_graph v1_duration video1 video2 duration.

(** Lines 182-196 of the source: the body of [_fade_transition] once
    [v1_duration] is known. *)
Definition fade_graph (v1_duration : Q) (video1 video2 : pyobj)
           (duration : Q) : result pyobj :=
  let fade_start := (v1_duration - duration / 2)%Q in
  (* Fade out first video to black *)
  v1 <- video video1 ;;
  let v1_faded :=
    filter [v1] "fade"
           [("type", VStr "out"); ("start_time", VFloat fade_start);
            ("duration", VFloat (duration / 2))] in
  a1 <- audio video1 ;;
  let a1_faded :=
    filter [a1] "afade"
           [("type", VStr "out"); ("start_time", VFloat fade_start);
            ("duration", VFloat (duration / 2))] in
  (* Fade in second video from black *)
  v2 <- video video2 ;;
  let v2_faded :=
    filter [v2] "fade"
           [("type", VStr "in"); ("start_time", VInt 0);
            ("duration", VFloat (duration / 2))] in
  a2 <- audio video2 ;;
  let a2_faded :=
    filter [a2] "afade"
           [("type", VStr "in"); ("start_time", VInt 0);
            ("duration", VFloat (duration / 2))] in
  (* Concatenate the faded videos *)
  v_out <- concat [PStream v1_faded; PStream v2_faded]
                  [("v", VInt 1); ("a", VInt 0)] ;;
  a_out <- concat [PStream a1_faded; PStream a2_faded]
                  [("v", VInt 0); ("a", VInt 1)] ;;
  Ok (PDict v_out a_out).

Definition _fade_transition (video1 video2 : pyobj) (duration : Q)
  : result pyobj :=
  v1_duration <- _get_video_duration video1 ;;
  fade_graph v1_duration video1 video2 duration.

Definition _wipe_transition (video1 video2 : pyobj) (duration : Q)
  : result pyobj :=
  v_out <- concat [video1; video2] [("v", VInt 1); ("a", VInt 0)] ;;
  a_out <- concat [video1; video2] [("v", VInt 0); ("a", VInt 1)] ;;
  Ok (PDict v_out a_out).

Definition _slide_transition (video1 video2 : pyobj) (duration : Q)
  : result pyobj :=
  v_out <- concat [video1; video2] [("v", VInt 1); ("a", VInt 0)] ;;
  a_out <- concat [video1; video2] [("v", VInt 0); ("a", VInt 1)] ;;
  Ok (PDict v_out a_out).

Definition _apply_transition (video1 video2 : pyobj) (transition : transition)
  : result pyobj :=
  let transition_type := default "none" (t_type transition) in
  let duration := default 1%Q (t_duration transition) in
  if String.eqb transition_type "crossfade" then
    _crossfade_transition video1 video2 duration
  else if String.eqb transition_type "fade" then
    _fade_transition video1 video2 duration
  else if String.eqb transition_type "wipe" then
    _wipe_transition video1 video2 duration
  else if String.eqb transition_type "slide" then
    _slide_transition video1 video2 duration
  else (* 'none' or any other type defaults to simple concatenation *)
    s <- concat [video1; video2] [("v", VInt 1); ("a", VInt 1)] ;;
    Ok (PStream s).

End Builders.

(** ** The chain composer (lines 96-110), for any pairwise builder *)

(** Truthiness of the [transitions] argument: neither [None] nor [[]]. *)
Definition transitions_given (transitions : option (list transition)) : bool :=
  match transitions with
  | Some (_ :: _) => true
  | _ => false
  end.

(** [l[i]] *)
Definition index {A : Type} (l : list A) (i : nat) : result A :=
  match l !! i with
  | Some x => Ok x
  | None => Err IndexError
  end.

(** [transitions[idx] if transitions else {'type': 'none', 'duration': 1.0}] *)
Definition transition_or_default (transitions : option (list transition))
           (idx : nat) : result transition :=
  if transitions_given transitions then index (default [] transitions) idx
  else Ok default_transition.

Section Chain.
Variable build : pyobj -> pyobj -> transition -> result pyobj.
Variable transitions : option (list transition).

(** The loop [for i in range(1, len(inputs))] from [i] on: [res] is the
    source's [result] and [rest] is [inputs[i:]]. *)
Fixpoint chain_loop (res : pyobj) (rest : list stream) (i : nat)
  : result pyobj :=
  match rest with
  | [] => Ok res
  | input_i :: rest' =>
      let transition_idx :=
        if transitions_given transitions
        then Nat.min (i - 1) (length (default [] transitions) - 1)
        else 0%nat in
      transition <- transition_or_default transitions transition_idx ;;
      res' <- build res (PStream input_i) transition ;;
      chain_loop res' rest' (S i)
  end.

Definition chain (inputs : list stream) : result pyobj :=
  if Nat.eqb (length inputs) 2 then
    (* Single transition between two videos *)
    transition <- transition_or_default transitions 0 ;;
    video1 <- index inputs 0 ;;
    video2 <- index inputs 1 ;;
    build (PStream video1) (PStream video2) transition
  else
    (* Multiple transitions - chain them *)
    first <- index inputs 0 ;;
    chain_loop (PStream first) (drop 1 inputs) 1.

End Chain.

(** ** The job: files on disk and calls to the outside *)

Inductive event : Type :=
| EvDownload (url dest : string)
| EvWrite (path content : string)
| EvRun (plan : output_node) (overwrite_output : bool)
| EvRemove (path : string).

Record world : Type := World {
  files : gset string;
  trace : list event
}.

(** What [run] does with a plan: the library compiles the graph into a
    command line and starts the ffmpeg executable.  Either step can raise
    (the compiler refuses some graphs, a non-zero exit raises
    [ffmpeg.Error]); otherwise the executable ends with or without the
    output file written. *)
Inductive run_outcome : Type :=
| RunFails (e : exn)
| RunWrites
| RunWritesNothing.

Definition M (A : Type) : Type := world -> result A * world.

Definition ret {A : Type} (a : A) : M A := fun w => (Ok a, w).
Definition raise {A : Type} (e : exn) : M A := fun w => (Err e, w).
Definition lift {A : Type} (r : result A) : M A := fun w => (r, w).
Definition bind {A B : Type} (m : M A) (k : A -> M B) : M B :=
  fun w =>
    match m w with
    | (Ok a, w') => k a w'
    | (Err e, w') => (Err e, w')
    end.

Declare Scope job_scope.
Delimit Scope job_scope with job.
Notation "x <- m ;; k" := (bind m (fun x => k))
  (at level 90, m at next level, right associativity) : job_scope.
Notation "m ;;; k" := (bind m (fun _ => k))
  (at level 90, right associativity) : job_scope.

Definition log (e : event) (w : world) : world :=
  World (files w) (trace w ++ [e]).

(** [os.remove(path)] *)
Definition os_remove (path : string) : M unit :=
  fun w =>
    if bool_decide (path ∈ files w)
    then (Ok tt, log (EvRemove path) (World (files w ∖ {[path]}) (trace w)))
    else (Err FileNotFoundError, w).

(** [os.path.exists(path)] *)
Definition os_path_exists (path : string) : M bool :=
  fun w => (Ok (bool_decide (path ∈ files w)), w).

(** [with open(path, 'w') as f: f.write(...)], the whole text at once.
    An [open] that raises (storage directory missing or not writable) is
    not modelled: what is proved of the copy path is proved of the runs in
    which the list can be written. *)
Definition write_file (path content : string) : M unit :=
  fun w => (Ok tt, log (EvWrite path content)
                       (World (files w ∪ {[path]}) (trace w))).

Definition newline : string := String (ascii_of_nat 10) EmptyString.

(** [str(i)] for a non-negative int. *)
Definition str (i : nat) : string := NilEmpty.string_of_uint (Nat.to_uint i).

(** A media item [{'video_url': ...}]. *)
Record media_item : Type := MediaItem { video_url : string }.

Section Job.

Variable probe : string -> option Q.
(** [config.LOCAL_STORAGE_PATH], [os.path.join], [os.path.abspath]. *)
Variable LOCAL_STORAGE_PATH : string.
Variable os_path_join : string -> string -> string.
Variable os_path_abspath : string -> string.
(** [services.file_management.download_file(url, prefix)]: the local file
    name it returns, or the exception it raises. *)
Variable download_file_result : string -> string -> result string.
(** The outcome of [run] on a plan. *)
Variable ffmpeg_exec : output_node -> run_outcome.

Local Open Scope job_scope.

Definition download_file (url dest : string) : M string :=
  fun w =>
    let w' := log (EvDownload url dest) w in
    match download_file_result url dest with
    | Ok path => (Ok path, World (files w' ∪ {[path]}) (trace w'))
    | Err e => (Err e, w')
    end.

(** [plan.run(overwrite_output=True)] *)
Definition run (plan : output_node) : M unit :=
  fun w =>
    let w' := log (EvRun plan true) w in
    match ffmpeg_exec plan with
    | RunFails e => (Err e, w')
    | RunWritesNothing => (Ok tt, w')
    | RunWrites =>
        match kw_get "filename" (out_kwargs plan) with
        | Some (VStr path) => (Ok tt, World (files w' ∪ {[path]}) (trace w'))
        | _ => (Ok tt, w')
        end
    end.

(** The text [_concatenate_simple] writes to the concat list. *)
Fixpoint concat_list_text (input_files : list string) : string :=
  match input_files with
  | [] => EmptyString
  | input_file :: rest =>
      ("file '" +:+ os_path_abspath input_file +:+ "'" +:+ newline)
        +:+ concat_list_text rest
  end.

Definition _concatenate_simple (input_files : list string)
           (output_path job_id : string) : M unit :=
  let concat_file_path :=
    os_path_join LOCAL_STORAGE_PATH (job_id +:+ "_concat_list.txt") in
  write_file concat_file_path (concat_list_text input_files) ;;;
  (* Use the concat demuxer to concatenate the videos *)
  run (output [input concat_file_path
                     [("format", VStr "concat"); ("safe", VInt 0)]]
              output_path [("c", VStr "copy")]) ;;;
  (* Clean up concat file *)
  os_remove concat_file_path.

Definition _concatenate_with_transitions (input_files : list string)
           (output_path : string) (transitions : option (list transition))
  : M unit :=
  if Nat.ltb (length input_files) 2 then
    raise (ValueError "At least 2 videos are required for transitions")
  else
    (* Load all input files *)
    let inputs := map (fun file => input file []) input_files in
    (* Build filtergraph for transitions *)
    output_streams <- lift (chain (_apply_transition probe) transitions inputs) ;;
    (* Handle different return types from transition functions *)
    match output_streams with
    | PDict video_stream audio_stream =>
        run (output [video_stream; audio_stream] output_path [])
    | PStream s =>
        run (output [s] output_path [])
    end.

(** [for i, media_item in enumerate(media_urls)], from index [i] on. *)
Fixpoint download_all (job_id : string) (i : nat) (media_urls : list media_item)
         (input_files : list string) : M (list string) :=
  match media_urls with
  | [] => ret input_files
  | media_item :: rest =>
      let url := video_url media_item in
      input_filename <-
        download_file url
          (os_path_join LOCAL_STORAGE_PATH (job_id +:+ "_input_" +:+ str i)) ;;
      download_all job_id (S i) rest (input_files ++ [input_filename])
  end.

(** [for f in input_files: os.remove(f)] *)
Fixpoint remove_all (input_files : list string) : M unit :=
  match input_files with
  | [] => ret tt
  | f :: rest => os_remove f ;;; remove_all rest
  end.

Definition process_video_concatenate (media_urls : list media_item)
           (job_id : string) (webhook_url : option string)
           (transitions : option (list transition)) : M string :=
  let output_filename := job_id +:+ ".mp4" in
  let output_path := os_path_join LOCAL_STORAGE_PATH output_filename in
  (* Download all media files *)
  input_files <- download_all job_id 0 media_urls [] ;;
  (* Check if transitions are specified and handle accordingly *)
  (if transitions_given transitions
   then _concatenate_with_transitions input_files output_path transitions
   else _concatenate_simple input_files output_path job_id) ;;;
  (* Clean up input files *)
  remove_all input_files ;;;
  (* Check if the output file exists locally before upload *)
  output_exists <- os_path_exists output_path ;;
  if negb output_exists then raise FileNotFoundError
  else ret output_path.

End Job.

(** ** Vocabulary of the properties *)

(** A clip as the composer loads it: [ffmpeg.input(file)]. *)
Definition clip (filename : string) : pyobj := PStream (input filename []).

(** The kind [_apply_transition] dispatches on. *)
Definition kind_of (t : transition) : string := default "none" (t_type t).

(** The four kinds with a builder of their own. *)
Definition effect_kind (k : string) : bool :=
  String.eqb k "crossfade" || String.eqb k "fade"
  || String.eqb k "wipe" || String.eqb k "slide".

(** An object the duration resolver probes: a stream whose node carries a
    non-empty ['filename']. *)
Definition file_backed (x : pyobj) : bool :=
  match x with
  | PStream s =>
      match kw_get "filename" (node_kwargs (fst s)) with
      | Some v => truthy v
      | None => false
      end
  | PDict _ _ => false
  end.

Definition is_dict (x : pyobj) : bool :=
  match x with
  | PDict _ _ => true
  | PStream _ => false
  end.

Definition is_download (e : event) : bool :=
  match e with EvDownload _ _ => true | _ => false end.

Definition is_remove (e : event) : bool :=
  match e with EvRemove _ => true | _ => false end.

Definition is_input_node (n : node) : bool :=
  match n with InputNode _ => true | FilterNode _ _ _ => false end.

(** The specification's chain composer (section 4.4):
    [result := clips[0]; for i in 1..len(clips)-1:
     transition := transitions[min(i-1, len(transitions)-1)] if transitions
     is non-empty, else the default; result := build(result, clips[i],
     transition)]. *)
Definition spec_transition_at (transitions : list transition) (i : nat)
  : transition :=
  match transitions with
  | [] => default_transition
  | _ :: _ =>
      nth (Nat.min (i - 1) (length transitions - 1)) transitions
          default_transition
  end.

Definition spec_step (build : pyobj -> pyobj -> transition -> result pyobj)
           (transitions : list transition) (acc : result pyobj)
           (gap : stream * nat) : result pyobj :=
  res <- acc ;;
  build res (PStream (fst gap)) (spec_transition_at transitions (snd gap)).

Definition spec_compose (build : pyobj -> pyobj -> transition -> result pyobj)
           (transitions : list transition) (clips : list stream)
  : result pyobj :=
  match clips with
  | [] => Err IndexError
  | first :: rest =>
      fold_left (spec_step build transitions)
                (zip rest (seq 1 (length rest)))
                (Ok (PStream first))
  end.

(** ** A small concrete setting: three files of 10, 8 and 5 seconds *)

Module Demo.

Definition probe (f : string) : option Q :=
  if String.eqb f "a.mp4" then Some 10%Q
  else if String.eqb f "b.mp4" then Some 8%Q
  else if String.eqb f "c.mp4" then Some 5%Q
  else None.

Definition storage : string := "/tmp".
Definition join (dir name : string) : string := dir +:+ "/" +:+ name.
Definition abspath (p : string) : string := p.

(** A fetcher that stores the file [u] under [dest ++ "_" ++ u]. *)
Definition fetch (u dest : string) : result string := Ok (dest +:+ "_" +:+ u).

Definition engine (plan : output_node) : run_outcome := RunWrites.

Definition start : world := World ∅ [].

Definition crossfade (d : Q) : transition := Transition (Some "crossfade") (Some d).
Definition fade (d : Q) : transition := Transition (Some "fade") (Some d).
Definition cut : transition := Transition (Some "none") None.
Definition bounce : transition := Transition (Some "bounce") (Some 1%Q).

Definition job (media_urls : list media_item)
           (transitions : option (list transition)) : result string * world :=
  process_video_concatenate probe storage join abspath fetch engine
                            media_urls "job" None transitions start.

End Demo.

(** ** Further vocabulary *)

Definition is_run (e : event) : bool :=
  match e with EvRun _ _ => true | _ => false end.

(** Is the transition selected at gap [i] a cut, that is, none of the four
    effects? *)
Definition cut_at (transitions : list transition) (i : nat) : bool :=
  negb (effect_kind (kind_of (spec_transition_at transitions i))).

(** A setting where things go wrong: a probe that knows one file only, an
    engine that always raises, an engine that exits without writing. *)
Module Faulty.

Definition probe (f : string) : option Q :=
  if String.eqb f "a.mp4" then Some 10%Q else None.

Definition engine_fails (plan : output_node) : run_outcome :=
  RunFails FFmpegError.

Definition engine_silent (plan : output_node) : run_outcome :=
  RunWritesNothing.

End Faulty.

(** * Properties *)

Import Engine.
Local Open Scope Q_scope.

(** Evaluation that leaves rational arithmetic folded. *)
Ltac run := cbv -[Qplus Qminus Qdiv Qmult Qopp Qinv Qmax Qmin Qeq Qlt Qle].


(** ** The duration resolver *)

Lemma truthy_filename (f : string) : f <> EmptyString -> truthy (VStr f) = true.
Proof.
  intros Hf. unfold truthy. apply negb_true_iff, String.eqb_neq. exact Hf.
Qed.

Lemma get_duration_clip (probe : string -> option Q) (f : string) (d : Q) :
  f <> EmptyString -> probe f = Some d -> _get_video_duration probe (clip f) = Ok d.
Proof.
  intros Hf Hp. unfold _get_video_duration, clip, input. cbn -[truthy].
  rewrite (truthy_filename f Hf), Hp. reflexivity.
Qed.

Lemma get_duration_not_file_backed (probe : string -> option Q) (x : pyobj) :
  file_backed x = false -> _get_video_duration probe x = Ok 0.
Proof.
  destruct x as [s|v a]; [|reflexivity].
  unfold file_backed, _get_video_duration.
  destruct (kw_get "filename" (node_kwargs (fst s))) as [v|]; [|reflexivity].
  intros ->. reflexivity.
Qed.

(** ** Shape of what the builders return *)

Lemma concat_pair (s1 s2 : stream) (v a : Z) :
  (v + a = 1)%Z ->
  concat [PStream s1; PStream s2] [("v", VInt v); ("a", VInt a)]
  = Ok (filter [s1; s2] "concat" [("v", VInt v); ("a", VInt a); ("n", VInt 2)]).
Proof.
  intros Hva. unfold concat. cbn [kw_get String.eqb default as_int rbind].
  cbn. rewrite Hva. reflexivity.
Qed.

Lemma concat_dict_first (v1 a1 : stream) (y : pyobj) (v a : Z) :
  is_ok (concat [PDict v1 a1; y] [("v", VInt v); ("a", VInt a)]) = false.
Proof.
  unfold concat. cbn [kw_get String.eqb default as_int rbind].
  cbn -[Z.modulo Z.div Z.eqb].
  destruct (Z.eqb (v + a) 0); [reflexivity|].
  destruct (negb _); reflexivity.
Qed.

Lemma crossfade_graph_dict (t : Q) (x y : pyobj) (d : Q) (r : pyobj) :
  crossfade_graph t x y d = Ok r -> is_dict r = true.
Proof.
  unfold crossfade_graph.
  destruct (video x), (audio x), (video y), (audio y); cbn [rbind];
    try discriminate.
  rewrite !concat_pair by reflexivity. cbn [rbind].
  intros [= <-]. reflexivity.
Qed.

Lemma fade_graph_dict (t : Q) (x y : pyobj) (d : Q) (r : pyobj) :
  fade_graph t x y d = Ok r -> is_dict r = true.
Proof.
  unfold fade_graph.
  destruct (video x), (audio x), (video y), (audio y); cbn [rbind];
    try discriminate.
  rewrite !concat_pair by reflexivity. cbn [rbind].
  intros [= <-]. reflexivity.
Qed.

Lemma split_concat_dict (x y r : pyobj) :
  (v_out <- concat [x; y] [("v", VInt 1); ("a", VInt 0)] ;;
   a_out <- concat [x; y] [("v", VInt 0); ("a", VInt 1)] ;;
   Ok (PDict v_out a_out))%result = Ok r ->
  is_dict r = true.
Proof.
  destruct (concat [x; y] [("v", VInt 1); ("a", VInt 0)]); [|discriminate].
  destruct (concat [x; y] [("v", VInt 0); ("a", VInt 1)]); [|discriminate].
  cbn [rbind]. intros [= <-]. reflexivity.
Qed.

(** The four effect builders return a dict whenever they return. *)
Lemma effect_returns_dict (probe : string -> option Q) (x y : pyobj)
      (t : transition) (r : pyobj) :
  effect_kind (kind_of t) = true ->
  _apply_transition probe x y t = Ok r -> is_dict r = true.
Proof.
  unfold effect_kind, kind_of, _apply_transition.
  destruct (String.eqb _ "crossfade").
  { intros _. unfold _crossfade_transition.
    destruct (_get_video_duration probe x); [|discriminate].
    apply crossfade_graph_dict. }
  destruct (String.eqb _ "fade").
  { intros _. unfold _fade_transition.
    destruct (_get_video_duration probe x); [|discriminate].
    apply fade_graph_dict. }
  destruct (String.eqb _ "wipe"); [intros _; apply split_concat_dict|].
  destruct (String.eqb _ "slide"); [intros _; apply split_concat_dict|].
  discriminate.
Qed.

(** The four effect builders fail on a dict as first operand. *)
Lemma effect_fails_on_dict (probe : string -> option Q) (v a : stream)
      (y : pyobj) (t : transition) :
  effect_kind (kind_of t) = true ->
  is_ok (_apply_transition probe (PDict v a) y t) = false.
Proof.
  unfold effect_kind, kind_of, _apply_transition.
  destruct (String.eqb _ "crossfade"); [reflexivity|].
  destruct (String.eqb _ "fade"); [reflexivity|].
  assert (Hsplit : forall d, is_ok (_wipe_transition (PDict v a) y d) = false).
  { intros d. unfold _wipe_transition.
    pose proof (concat_dict_first v a y 1 0) as H.
    destruct (concat [PDict v a; y] [("v", VInt 1); ("a", VInt 0)]);
      [discriminate H|reflexivity]. }
  destruct (String.eqb _ "wipe"); [intros _; apply Hsplit|].
  destruct (String.eqb _ "slide"); [intros _; apply Hsplit|].
  discriminate.
Qed.

(** Whatever [_apply_transition] returns is not file backed. *)
Lemma apply_result_not_file_backed (probe : string -> option Q) (x y : pyobj)
      (t : transition) (r : pyobj) :
  _apply_transition probe x y t = Ok r -> file_backed r = false.
Proof.
  destruct (effect_kind (kind_of t)) eqn:Hk.
  - intros H. apply (effect_returns_dict probe x y t r Hk) in H.
    destruct r; [discriminate H|reflexivity].
  - revert Hk. unfold effect_kind, kind_of, _apply_transition.
    destruct (String.eqb _ "crossfade"); [discriminate|].
    destruct (String.eqb _ "fade"); [discriminate|].
    destruct (String.eqb _ "wipe"); [discriminate|].
    destruct (String.eqb _ "slide"); [discriminate|].
    intros _. destruct x as [sx|vx ax].
    + destruct y as [sy|vy ay].
      * intros [= <-]. reflexivity.
      * discriminate.
    + discriminate.
Qed.

(** C9: the duration resolver returns exactly 0 for every object that is not
    a stream built directly from a file input: a dict, a stream whose node
    carries no (non-empty) file name and, in particular, whatever a previous
    transition step returned.  Crossfade and fade then do their timing
    arithmetic for that operand with duration 0. *)
Theorem resolver_zero_unless_file_input (probe : string -> option Q)
        (x : pyobj) :
  file_backed x = false
  \/ (exists video1 video2 t, _apply_transition probe video1 video2 t = Ok x) ->
  _get_video_duration probe x = Ok 0
  /\ (forall video2 d,
         _crossfade_transition probe x video2 d = crossfade_graph 0 x video2 d)
  /\ (forall video2 d,
         _fade_transition probe x video2 d = fade_graph 0 x video2 d).
Proof.
  intros Hx.
  assert (Hz : _get_video_duration probe x = Ok 0).
  { apply get_duration_not_file_backed.
    destruct Hx as [Hx|(video1 & video2 & t & Hx)]; [exact Hx|].
    exact (apply_result_not_file_backed probe video1 video2 t x Hx). }
  split; [exact Hz|].
  split; intros video2 d.
  - unfold _crossfade_transition. rewrite Hz. reflexivity.
  - unfold _fade_transition. rewrite Hz. reflexivity.
Qed.

Lemma resolver_zero_unless_file_input_witness :
  _get_video_duration Demo.probe
    (PDict (input "a.mp4" []) (input "b.mp4" [])) = Ok 0
  /\ (forall video2 d,
         _crossfade_transition Demo.probe
           (PDict (input "a.mp4" []) (input "b.mp4" [])) video2 d
         = crossfade_graph 0 (PDict (input "a.mp4" []) (input "b.mp4" []))
                           video2 d)
  /\ (forall video2 d,
         _fade_transition Demo.probe
           (PDict (input "a.mp4" []) (input "b.mp4" [])) video2 d
         = fade_graph 0 (PDict (input "a.mp4" []) (input "b.mp4" []))
                      video2 d).
Proof.
  apply (resolver_zero_unless_file_input Demo.probe).
  left. reflexivity.
Defined.

(** ** No validation of the transition duration *)

Lemma get_duration_clip_ok (probe : string -> option Q) (f : string) :
  probe f <> None -> is_ok (_get_video_duration probe (clip f)) = true.
Proof.
  intros Hp. unfold _get_video_duration, clip, input. cbn -[truthy].
  destruct (truthy (VStr f)); [|reflexivity].
  destruct (probe f); [reflexivity|contradiction].
Qed.

(** C2, as the code has it: no builder looks at the sign or the size of the
    duration.  On two clips loaded from files, the pairwise builder returns
    a result for every transition object, whatever its kind and its duration
    (zero, negative, longer than either clip or absent), as soon as the
    first clip can be probed. *)
Theorem apply_transition_accepts_any_duration (probe : string -> option Q)
        (fa fb : string) (t : transition) :
  probe fa <> None ->
  is_ok (_apply_transition probe (clip fa) (clip fb) t) = true.
Proof.
  intros Hp. pose proof (get_duration_clip_ok probe fa Hp) as Hd.
  unfold _apply_transition.
  destruct (String.eqb _ "crossfade").
  { unfold _crossfade_transition.
    destruct (_get_video_duration probe (clip fa)); [|discriminate Hd].
    reflexivity. }
  destruct (String.eqb _ "fade").
  { unfold _fade_transition.
    destruct (_get_video_duration probe (clip fa)); [|discriminate Hd].
    reflexivity. }
  destruct (String.eqb _ "wipe"); [reflexivity|].
  destruct (String.eqb _ "slide"); reflexivity.
Qed.

Lemma apply_transition_accepts_any_duration_witness :
  Demo.probe "a.mp4" <> None
  /\ is_ok (_apply_transition Demo.probe (clip "a.mp4") (clip "b.mp4")
                              (Demo.crossfade (-1))) = true.
Proof.
  assert (Hp : Demo.probe "a.mp4" <> None) by discriminate.
  split; [exact Hp|].
  exact (apply_transition_accepts_any_duration
           Demo.probe "a.mp4" "b.mp4" (Demo.crossfade (-1)) Hp).
Defined.

(** C2 fails as stated: a crossfade of duration 0, of duration -1 and of
    duration 20 between a 10 s and an 8 s clip, and a cut of duration -1,
    all return a result. *)
Lemma nonpositive_duration_not_rejected :
  is_ok (_apply_transition Demo.probe (clip "a.mp4") (clip "b.mp4")
                           (Demo.crossfade 0)) = true
  /\ is_ok (_apply_transition Demo.probe (clip "a.mp4") (clip "b.mp4")
                              (Demo.crossfade (-1))) = true
  /\ is_ok (_apply_transition Demo.probe (clip "a.mp4") (clip "b.mp4")
                              (Demo.crossfade 20)) = true
  /\ is_ok (_apply_transition Demo.probe (clip "a.mp4") (clip "b.mp4")
                              (Transition (Some "none") (Some (-1)))) = true.
Proof.
  repeat split; vm_compute; reflexivity.
Qed.

(** ** Running time of what the builders return *)

(** X6. The engine refuses every graph the crossfade builder makes.
    Whatever the duration, between two clips loaded from files the builder
    returns a dict, but each of its two tracks holds [trim] or [atrim]
    nodes given [start_time], an option these filters do not have: no track
    of any running time comes out of it. *)
Theorem crossfade_graph_always_refused (probe : string -> option Q)
        (fa fb : string) (durA d : Q) :
  fa <> EmptyString -> probe fa = Some durA ->
  exists v a,
    _apply_transition probe (clip fa) (clip fb)
                      (Transition (Some "crossfade") (Some d))
    = Ok (PDict v a)
    /\ engine_refuses (fst v) = true
    /\ engine_refuses (fst a) = true
    /\ stream_duration probe v = None
    /\ stream_duration probe a = None.
Proof.
  intros Hf Ha.
  unfold _apply_transition.
  cbn [t_type t_duration default from_option id String.eqb Ascii.eqb Bool.eqb].
  unfold _crossfade_transition. rewrite (get_duration_clip probe fa durA Hf Ha).
  cbn [rbind]. unfold crossfade_graph, clip. run.
  eexists _, _. split; [reflexivity|].
  split; [reflexivity|]. split; [reflexivity|].
  unfold stream_duration.
  cbn -[Qplus Qminus Qdiv Qmax Qmin Qeq]. rewrite Ha.
  destruct (probe fb); split; reflexivity.
Qed.

(** C1 on a 10 s and an 8 s clip with a 2 s crossfade: the builder returns
    a dict, but the segments it cuts out of the second clip are [trim] and
    [atrim] nodes given [start_time], which these filters do not have (their
    option is [start]).  The engine refuses both tracks, so neither runs
    for 10 + 8 - 2 = 16 s, nor for any other time. *)
Theorem crossfade_graph_refused_by_engine :
  exists v a,
    _apply_transition Demo.probe (clip "a.mp4") (clip "b.mp4")
                      (Demo.crossfade 2) = Ok (PDict v a)
    /\ engine_refuses (fst v) = true
    /\ engine_refuses (fst a) = true
    /\ has_unknown_option "trim" [("start_time", VFloat 2)] = true
    /\ has_unknown_option "trim" [("start", VFloat 2)] = false
    /\ ~ has_duration Demo.probe v (10 + 8 - 2)
    /\ ~ has_duration Demo.probe a (10 + 8 - 2).
Proof.
  eexists _, _. split; [vm_compute; reflexivity|].
  split; [vm_compute; reflexivity|].
  split; [vm_compute; reflexivity|].
  split; [reflexivity|]. split; [reflexivity|].
  split; vm_compute; intros [].
Qed.



(** ** The hard cut *)

(** Every kind other than the four effects takes the last branch, which on
    two clips loaded from files never fails: it returns one [concat] node
    over the two inputs, with [v=1, a=1] and hence a single segment. *)
Lemma other_kind_is_single_concat (probe : string -> option Q)
      (fa fb : string) (t : transition) :
  effect_kind (kind_of t) = false ->
  _apply_transition probe (clip fa) (clip fb) t
  = Ok (PStream (filter [input fa []; input fb []] "concat"
                        [("v", VInt 1); ("a", VInt 1); ("n", VInt 1)])).
Proof.
  unfold effect_kind, kind_of, _apply_transition.
  destruct (String.eqb _ "crossfade"); [discriminate|].
  destruct (String.eqb _ "fade"); [discriminate|].
  destruct (String.eqb _ "wipe"); [discriminate|].
  destruct (String.eqb _ "slide"); [discriminate|].
  reflexivity.
Qed.

(** C7 on a 10 s and an 8 s clip with the unknown kind "bounce": the builder
    does not fail and takes the hard-cut branch, but the node it returns is a
    [concat] of one segment ([n = 2 / (1 + 1) = 1]) that takes the first clip
    as the segment's video and the second as its audio; it runs for 10 s, not
    for 10 + 8 = 18 s.  The wipe builder, which concatenates with [v=1, a=0]
    and [v=0, a=1], gets two segments and 18 s on both tracks. *)
Theorem hard_cut_is_one_segment :
  let s := filter [input "a.mp4" []; input "b.mp4" []] "concat"
                  [("v", VInt 1); ("a", VInt 1); ("n", VInt 1)] in
  _apply_transition Demo.probe (clip "a.mp4") (clip "b.mp4") Demo.bounce
  = Ok (PStream s)
  /\ has_duration Demo.probe s 10
  /\ ~ has_duration Demo.probe s (10 + 8)
  /\ (exists v a,
        _apply_transition Demo.probe (clip "a.mp4") (clip "b.mp4")
                          (Transition (Some "wipe") (Some 1)) = Ok (PDict v a)
        /\ has_duration Demo.probe v (10 + 8)
        /\ has_duration Demo.probe a (10 + 8)).
Proof.
  split; [vm_compute; reflexivity|].
  split; [vm_compute; reflexivity|].
  split; [vm_compute; discriminate|].
  eexists _, _. repeat split; vm_compute; reflexivity.
Qed.

(** ** The chain composer *)

Lemma selection_spec (transitions : option (list transition)) (i : nat) :
  transition_or_default transitions
    (if transitions_given transitions
     then Nat.min (i - 1) (length (default [] transitions) - 1)
     else 0%nat)
  = Ok (spec_transition_at (default [] transitions) i).
Proof.
  destruct transitions as [[|t ts]|]; try reflexivity.
  unfold transition_or_default, transitions_given, index, spec_transition_at.
  cbn [default from_option id].
  set (idx := Nat.min (i - 1) (length (t :: ts) - 1)).
  assert (Hidx : (idx < length (t :: ts))%nat) by (subst idx; cbn; lia).
  destruct (lookup_lt_is_Some_2 _ _ Hidx) as [x Hx].
  rewrite Hx. f_equal. symmetry.
  rewrite nth_lookup, Hx. reflexivity.
Qed.

Lemma selection_first (transitions : option (list transition)) :
  transition_or_default transitions 0
  = Ok (spec_transition_at (default [] transitions) 1).
Proof.
  destruct transitions as [[|t ts]|]; reflexivity.
Qed.

Lemma fold_spec_step_err (build : pyobj -> pyobj -> transition -> result pyobj)
      (ts : list transition) (gaps : list (stream * nat)) (e : exn) :
  fold_left (spec_step build ts) gaps (Err e) = Err e.
Proof.
  induction gaps as [|g gaps IH]; [reflexivity|exact IH].
Qed.

Lemma chain_loop_spec (build : pyobj -> pyobj -> transition -> result pyobj)
      (transitions : option (list transition)) (rest : list stream) :
  forall (res : pyobj) (i : nat),
    chain_loop build transitions res rest i
    = fold_left (spec_step build (default [] transitions))
                (zip rest (seq i (length rest))) (Ok res).
Proof.
  induction rest as [|x rest IH]; intros res i; [reflexivity|].
  cbn [chain_loop length seq zip zip_with fold_left].
  rewrite selection_spec. cbn [rbind spec_step fst snd].
  destruct (build res (PStream x) _) as [r|e]; cbn [rbind].
  - apply IH.
  - symmetry. apply fold_spec_step_err.
Qed.

(** C3: on two or more clips the composer of the source is the fold of the
    specification: at gap [i] (counted from 1) it hands the builder the
    transition at index [min (i-1) (len-1)] of a non-empty list, and the
    default [{type: none, duration: 1.0}] when the list is empty or absent.
    Hence gap [i] of a non-empty list gets the [i]-th transition while there
    is one, and the last one from then on. *)
Theorem chain_selects_clamped_transition
        (build : pyobj -> pyobj -> transition -> result pyobj)
        (transitions : option (list transition)) (inputs : list stream) :
  (2 <= length inputs)%nat ->
  chain build transitions inputs
  = spec_compose build (default [] transitions) inputs
  /\ (forall ts i, transitions = Some ts -> (1 <= i <= length ts)%nat ->
        ts !! (i - 1)%nat = Some (spec_transition_at ts i))
  /\ (forall ts i, transitions = Some ts -> ts <> [] -> (length ts <= i)%nat ->
        last ts = Some (spec_transition_at ts i))
  /\ (transitions_given transitions = false ->
        forall i, spec_transition_at (default [] transitions) i
                  = default_transition).
Proof.
  intros Hlen. split; [|split; [|split]].
  - destruct inputs as [|a [|b rest]]; cbn in Hlen; try lia.
    unfold chain, spec_compose.
    destruct rest as [|c rest].
    + cbn [length Nat.eqb]. rewrite selection_first. reflexivity.
    + cbn [length Nat.eqb index lookup list_lookup rbind drop].
      apply chain_loop_spec.
  - intros ts i _ Hi. unfold spec_transition_at.
    destruct ts as [|t ts]; [cbn in Hi; lia|].
    replace (Nat.min (i - 1) (length (t :: ts) - 1)) with (i - 1)%nat by lia.
    destruct (lookup_lt_is_Some_2 (t :: ts) (i - 1)) as [x Hx]; [lia|].
    rewrite Hx, nth_lookup, Hx. reflexivity.
  - intros ts i _ Hne Hi. unfold spec_transition_at.
    destruct ts as [|t ts]; [contradiction|].
    replace (Nat.min (i - 1) (length (t :: ts) - 1))
      with (length (t :: ts) - 1)%nat by lia.
    rewrite last_lookup. cbn [length Init.Nat.pred].
    replace (S (length ts) - 1)%nat with (length ts) by lia.
    destruct (lookup_lt_is_Some_2 (t :: ts) (length ts)) as [x Hx];
      [cbn; lia|].
    rewrite Hx, nth_lookup, Hx. reflexivity.
  - intros Hg i. destruct transitions as [[|t ts]|];
      [reflexivity|discriminate Hg|reflexivity].
Qed.

Lemma chain_selects_clamped_transition_witness :
  chain (_apply_transition Demo.probe)
        (Some [Demo.cut; Demo.crossfade 1])
        [input "a.mp4" []; input "b.mp4" []; input "c.mp4" []]
  = spec_compose (_apply_transition Demo.probe)
                 [Demo.cut; Demo.crossfade 1]
                 [input "a.mp4" []; input "b.mp4" []; input "c.mp4" []].
Proof.
  assert (Hlen : (2 <= length [input "a.mp4" []; input "b.mp4" [];
                               input "c.mp4" []])%nat) by (cbn; lia).
  exact (proj1 (chain_selects_clamped_transition
                  (_apply_transition Demo.probe)
                  (Some [Demo.cut; Demo.crossfade 1]) _ Hlen)).
Defined.

(** The example of the specification: four clips and one transition; the
    three joins all get that transition. *)
Lemma one_transition_for_three_gaps
      (build : pyobj -> pyobj -> transition -> result pyobj) (t : transition)
      (a b c d : stream) :
  chain build (Some [t]) [a; b; c; d]
  = (r1 <- build (PStream a) (PStream b) t ;;
     r2 <- build r1 (PStream c) t ;;
     build r2 (PStream d) t)%result.
Proof.
  cbn. destruct (build (PStream a) (PStream b) t) as [r1|]; [|reflexivity].
  cbn. destruct (build r1 (PStream c) t) as [r2|]; [|reflexivity].
  cbn. destruct (build r2 (PStream d) t); reflexivity.
Qed.

(** C10, as the code has it: with three or more clips, when the kinds
    selected at the first and at the second gap are both among crossfade,
    fade, wipe and slide, the composition fails before any plan reaches the
    engine.  The first step returns a dict (or fails in the probe); the
    second step reads [.video] of that dict (crossfade, fade) or hands it to
    [ffmpeg.concat] (wipe, slide), and both raise. *)
Theorem chain_fails_after_an_effect_step
        (probe : string -> option Q) (ffmpeg_exec : output_node -> run_outcome)
        (input_files : list string) (ts : list transition)
        (output_path : string) (w : world) :
  (3 <= length input_files)%nat ->
  ts <> [] ->
  effect_kind (kind_of (spec_transition_at ts 1)) = true ->
  effect_kind (kind_of (spec_transition_at ts 2)) = true ->
  is_ok (chain (_apply_transition probe) (Some ts)
               (map (fun file => input file []) input_files)) = false
  /\ exists e,
       _concatenate_with_transitions probe ffmpeg_exec input_files output_path
                                     (Some ts) w = (Err e, w).
Proof.
  intros Hlen Hne Hk1 Hk2.
  assert (Hchain : is_ok (chain (_apply_transition probe) (Some ts)
                     (map (fun file => input file []) input_files)) = false).
  { destruct input_files as [|f0 [|f1 [|f2 rest]]]; cbn in Hlen; try lia.
    unfold chain.
    cbn [map list_fmap fmap length Nat.eqb index lookup list_lookup rbind drop].
    cbn [chain_loop]. rewrite selection_spec. cbn [rbind default from_option id].
    destruct (_apply_transition probe _ _ (spec_transition_at ts 1))
      as [r|e] eqn:Hr; [|reflexivity].
    cbn [rbind]. rewrite selection_spec. cbn [rbind default from_option id].
    apply effect_returns_dict in Hr; [|exact Hk1].
    destruct r as [s|v a]; [discriminate Hr|].
    pose proof (effect_fails_on_dict probe v a (PStream (input f2 []))
                  (spec_transition_at ts 2) Hk2) as Hfail.
    destruct (_apply_transition probe (PDict v a) _ _); [discriminate Hfail|].
    reflexivity. }
  split; [exact Hchain|].
  unfold _concatenate_with_transitions.
  destruct (Nat.ltb_ge (length input_files) 2) as [_ Hge].
  rewrite Hge by lia.
  unfold bind, lift.
  destruct (chain _ _ _) as [r|e]; [discriminate Hchain|].
  exists e. reflexivity.
Qed.

Lemma chain_fails_after_an_effect_step_witness :
  is_ok (chain (_apply_transition Demo.probe) (Some [Demo.crossfade 1])
               (map (fun file => input file [])
                    ["a.mp4"; "b.mp4"; "c.mp4"])) = false.
Proof.
  assert (Hlen : (3 <= length ["a.mp4"; "b.mp4"; "c.mp4"])%nat) by (cbn; lia).
  assert (Hne : [Demo.crossfade 1] <> []) by discriminate.
  exact (proj1 (chain_fails_after_an_effect_step
                  Demo.probe Demo.engine ["a.mp4"; "b.mp4"; "c.mp4"]
                  [Demo.crossfade 1] "out.mp4" Demo.start
                  Hlen Hne eq_refl eq_refl)).
Defined.

(** C10 fails as stated: three clips with a cut at the first gap and a
    crossfade at the second.  The first step returns a stream, which has a
    [.video] and an [.audio]; the composition returns a dict, and the plan
    made of it is handed to the engine. *)
Lemma crossfade_after_cut_succeeds :
  effect_kind (kind_of (spec_transition_at [Demo.cut; Demo.crossfade 1] 2))
  = true
  /\ is_ok (chain (_apply_transition Demo.probe)
                  (Some [Demo.cut; Demo.crossfade 1])
                  (map (fun file => input file [])
                       ["a.mp4"; "b.mp4"; "c.mp4"])) = true
  /\ exists plan,
       trace (snd (_concatenate_with_transitions Demo.probe Demo.engine
                     ["a.mp4"; "b.mp4"; "c.mp4"] "out.mp4"
                     (Some [Demo.cut; Demo.crossfade 1]) Demo.start))
       = [EvRun plan true].
Proof.
  split; [reflexivity|]. split; [vm_compute; reflexivity|].
  eexists. vm_compute. reflexivity.
Qed.

(** ** Further properties of the builders *)

Lemma cut_result (probe : string -> option Q) (s1 s2 : stream)
      (t : transition) :
  effect_kind (kind_of t) = false ->
  _apply_transition probe (PStream s1) (PStream s2) t
  = Ok (PStream (filter [s1; s2] "concat"
                        [("v", VInt 1); ("a", VInt 1); ("n", VInt 1)])).
Proof.
  unfold effect_kind, kind_of, _apply_transition.
  destruct (String.eqb _ "crossfade"); [discriminate|].
  destruct (String.eqb _ "fade"); [discriminate|].
  destruct (String.eqb _ "wipe"); [discriminate|].
  destruct (String.eqb _ "slide"); [discriminate|].
  reflexivity.
Qed.

Lemma apply_fails_on_dict (probe : string -> option Q) (v a : stream)
      (y : pyobj) (t : transition) :
  is_ok (_apply_transition probe (PDict v a) y t) = false.
Proof.
  destruct (effect_kind (kind_of t)) eqn:Hk;
    [exact (effect_fails_on_dict probe v a y t Hk)|].
  revert Hk. unfold effect_kind, kind_of, _apply_transition.
  destruct (String.eqb _ "crossfade"); [discriminate|].
  destruct (String.eqb _ "fade"); [discriminate|].
  destruct (String.eqb _ "wipe"); [discriminate|].
  destruct (String.eqb _ "slide"); [discriminate|].
  intros _. pose proof (concat_dict_first v a y 1 1) as H.
  destruct (concat [PDict v a; y] [("v", VInt 1); ("a", VInt 1)]);
    [discriminate H|reflexivity].
Qed.

Lemma apply_on_unbacked_stream (probe : string -> option Q) (n m : node)
      (t : transition) :
  file_backed (PStream (n, None)) = false ->
  is_ok (_apply_transition probe (PStream (n, None)) (PStream (m, None)) t)
  = true.
Proof.
  intros Hn. pose proof (get_duration_not_file_backed probe _ Hn) as Hd.
  unfold _apply_transition.
  destruct (String.eqb _ "crossfade").
  { unfold _crossfade_transition. rewrite Hd. reflexivity. }
  destruct (String.eqb _ "fade").
  { unfold _fade_transition. rewrite Hd. reflexivity. }
  destruct (String.eqb _ "wipe"); [reflexivity|].
  destruct (String.eqb _ "slide"); reflexivity.
Qed.

(** X3. A failing probe is not turned into duration 0: the resolver falls
    back to 0 only when there is no file name to probe.  On two clips
    loaded from files, when lines 128-129 raise for the first one, the
    resolver raises, crossfade and fade raise the same exception, and wipe,
    slide and the cut, which never probe, return. *)
Theorem probe_failure_propagates (probe : string -> option Q)
        (fa fb : string) (t : transition) :
  fa <> EmptyString -> probe fa = None ->
  exists e,
    _get_video_duration probe (clip fa) = Err e
    /\ if String.eqb (kind_of t) "crossfade" || String.eqb (kind_of t) "fade"
       then _apply_transition probe (clip fa) (clip fb) t = Err e
       else is_ok (_apply_transition probe (clip fa) (clip fb) t) = true.
Proof.
  intros Hf Hp.
  assert (Hd : exists e, _get_video_duration probe (clip fa) = Err e).
  { unfold _get_video_duration, clip, input. cbn -[truthy].
    rewrite (truthy_filename fa Hf), Hp. eexists. reflexivity. }
  destruct Hd as [e Hd]. exists e. split; [exact Hd|].
  unfold kind_of, _apply_transition.
  destruct (String.eqb _ "crossfade"); cbn [orb].
  { unfold _crossfade_transition. rewrite Hd. reflexivity. }
  destruct (String.eqb _ "fade").
  { unfold _fade_transition. rewrite Hd. reflexivity. }
  destruct (String.eqb _ "wipe"); [reflexivity|].
  destruct (String.eqb _ "slide"); reflexivity.
Qed.

Lemma probe_failure_propagates_witness :
  exists e,
    _get_video_duration Faulty.probe (clip "b.mp4") = Err e
    /\ _apply_transition Faulty.probe (clip "b.mp4") (clip "a.mp4")
                         (Demo.crossfade 1) = Err e.
Proof.
  assert (Hf : "b.mp4" <> EmptyString) by discriminate.
  exact (probe_failure_propagates Faulty.probe "b.mp4" "a.mp4"
           (Demo.crossfade 1) Hf eq_refl).
Defined.

Lemma apply_transition_probe_ext (probe1 probe2 : string -> option Q)
      (video1 video2 : pyobj) (t : transition) :
  _get_video_duration probe1 video1 = _get_video_duration probe2 video1 ->
  _apply_transition probe1 video1 video2 t
  = _apply_transition probe2 video1 video2 t.
Proof.
  intros H. unfold _apply_transition, _crossfade_transition, _fade_transition.
  rewrite H. reflexivity.
Qed.

(** X4. The second clip is never probed: two probes that agree on the file of
    the first clip make every builder return the same thing, whatever they
    say of the second file. *)
Theorem second_clip_is_never_probed (probe1 probe2 : string -> option Q)
        (fa fb : string) (t : transition) :
  probe1 fa = probe2 fa ->
  _apply_transition probe1 (clip fa) (clip fb) t
  = _apply_transition probe2 (clip fa) (clip fb) t.
Proof.
  intros H. apply apply_transition_probe_ext.
  unfold _get_video_duration, clip, input. cbn -[truthy].
  destruct (truthy (VStr fa)); [|reflexivity].
  rewrite H. reflexivity.
Qed.

Lemma second_clip_is_never_probed_witness :
  _apply_transition Demo.probe (clip "a.mp4") (clip "b.mp4") (Demo.fade 2)
  = _apply_transition Faulty.probe (clip "a.mp4") (clip "b.mp4") (Demo.fade 2).
Proof.
  exact (second_clip_is_never_probed Demo.probe Faulty.probe
           "a.mp4" "b.mp4" (Demo.fade 2) eq_refl).
Defined.

(** X5. Wipe and slide are the same plain concatenation: between two clips
    loaded from files both return the two inputs concatenated whole, once
    as video and once as audio, whatever the duration asked for, and both
    tracks run for [durA + durB]. *)
Theorem wipe_and_slide_concatenate (probe : string -> option Q)
        (fa fb : string) (durA durB : Q) (t : transition) :
  probe fa = Some durA -> probe fb = Some durB ->
  kind_of t = "wipe" \/ kind_of t = "slide" ->
  let v := filter [input fa []; input fb []] "concat"
                  [("v", VInt 1); ("a", VInt 0); ("n", VInt 2)] in
  let a := filter [input fa []; input fb []] "concat"
                  [("v", VInt 0); ("a", VInt 1); ("n", VInt 2)] in
  _apply_transition probe (clip fa) (clip fb) t = Ok (PDict v a)
  /\ has_duration probe v (durA + durB)
  /\ has_duration probe a (durA + durB).
Proof.
  intros Ha Hb Hk v a. split.
  - unfold _apply_transition. fold (kind_of t).
    destruct Hk as [-> | ->]; reflexivity.
  - unfold has_duration, stream_duration, v, a.
    cbn -[Qplus Qminus Qdiv Qmax Qmin Qeq]. rewrite Ha, Hb. run.
    split; lra.
Qed.

Lemma wipe_and_slide_concatenate_witness :
  has_duration Demo.probe
    (filter [input "a.mp4" []; input "b.mp4" []] "concat"
            [("v", VInt 1); ("a", VInt 0); ("n", VInt 2)]) (10 + 8).
Proof.
  exact (proj1 (proj2 (wipe_and_slide_concatenate Demo.probe "a.mp4" "b.mp4"
                         10 8 (Transition (Some "slide") None)
                         eq_refl eq_refl (or_intror eq_refl)))).
Defined.

Lemma crossfade_graph_always_refused_witness :
  exists v a,
    _apply_transition Demo.probe (clip "a.mp4") (clip "b.mp4")
                      (Demo.crossfade 2) = Ok (PDict v a)
    /\ engine_refuses (fst v) = true
    /\ engine_refuses (fst a) = true.
Proof.
  assert (Hf : "a.mp4" <> EmptyString) by discriminate.
  destruct (crossfade_graph_always_refused Demo.probe "a.mp4" "b.mp4" 10 2
              Hf eq_refl) as (v & a & Hr & Hv & Ha & _).
  exists v, a. split; [exact Hr|]. split; [exact Hv|exact Ha].
Defined.

(** ** Further properties of the chain composer *)

Lemma chain_loop_from_dict (probe : string -> option Q)
      (transitions : option (list transition)) (v a : stream) (x : stream)
      (rest : list stream) (i : nat) :
  is_ok (chain_loop (_apply_transition probe) transitions (PDict v a)
                    (x :: rest) i) = false.
Proof.
  cbn [chain_loop]. rewrite selection_spec. cbn [rbind].
  pose proof (apply_fails_on_dict probe v a (PStream x)
                (spec_transition_at (default [] transitions) i)) as H.
  destruct (_apply_transition probe (PDict v a) _ _); [discriminate H|].
  reflexivity.
Qed.

Lemma chain_loop_cuts (probe : string -> option Q)
      (transitions : option (list transition)) (fs : list string) :
  forall (n : node) (i : nat),
    (2 <= length fs)%nat \/ file_backed (PStream (n, None)) = false ->
    is_ok (chain_loop (_apply_transition probe) transitions (PStream (n, None))
                      (map (fun file => input file []) fs) i)
    = forallb (cut_at (default [] transitions)) (seq i (length fs - 1)).
Proof.
  induction fs as [|f fs IH]; intros n i Hn; [reflexivity|].
  cbn [map list_fmap fmap chain_loop]. rewrite selection_spec. cbn [rbind].
  set (t := spec_transition_at (default [] transitions) i).
  destruct fs as [|g fs].
  - destruct Hn as [Hn|Hn]; [cbn in Hn; lia|].
    pose proof (apply_on_unbacked_stream probe n (fst (input f [])) t Hn) as H.
    unfold input in *. cbn [fst] in H.
    destruct (_apply_transition probe _ _ t); [reflexivity|discriminate H].
  - replace (length (f :: g :: fs) - 1)%nat with (S (length (g :: fs) - 1))
      by (cbn; lia).
    cbn [seq forallb]. unfold cut_at at 1. fold t.
    destruct (effect_kind (kind_of t)) eqn:Hk; cbn [negb andb].
    + destruct (_apply_transition probe _ _ t) as [r|e] eqn:Hr;
        [|reflexivity].
      cbn [rbind]. apply effect_returns_dict in Hr; [|exact Hk].
      destruct r as [s|v a]; [discriminate Hr|].
      apply chain_loop_from_dict.
    + unfold input. rewrite (cut_result probe _ _ t Hk). cbn [rbind].
      apply (IH _ (S i)). right. reflexivity.
Qed.

(** X1. A chain of three or more clips can be built exactly when every
    transition but the last is a cut.  An effect (crossfade, fade, wipe,
    slide) returns a dict, which no later step accepts as its first operand;
    a cut returns a stream, on which every builder works, without probing
    any file. *)
Theorem long_chain_builds_iff_cuts (probe : string -> option Q)
        (transitions : option (list transition)) (input_files : list string) :
  (3 <= length input_files)%nat ->
  is_ok (chain (_apply_transition probe) transitions
               (map (fun file => input file []) input_files))
  = forallb (cut_at (default [] transitions))
            (seq 1 (length input_files - 2)).
Proof.
  intros Hlen.
  destruct input_files as [|f0 [|f1 [|f2 rest]]]; cbn in Hlen; try lia.
  unfold chain.
  cbn [map list_fmap fmap length Nat.eqb index lookup list_lookup rbind drop].
  pose proof (chain_loop_cuts probe transitions (f1 :: f2 :: rest)
                (fst (input f0 [])) 1%nat) as H.
  cbn [map list_fmap fmap length] in H. unfold input in *. cbn [fst] in H.
  rewrite H by (left; lia). reflexivity.
Qed.

Lemma long_chain_builds_iff_cuts_witness :
  is_ok (chain (_apply_transition Demo.probe)
               (Some [Demo.cut; Demo.cut; Demo.crossfade 1])
               (map (fun file => input file [])
                    ["a.mp4"; "b.mp4"; "c.mp4"; "a.mp4"]))
  = true.
Proof.
  assert (Hlen : (3 <= length ["a.mp4"; "b.mp4"; "c.mp4"; "a.mp4"])%nat)
    by (cbn; lia).
  exact (long_chain_builds_iff_cuts Demo.probe
           (Some [Demo.cut; Demo.cut; Demo.crossfade 1])
           ["a.mp4"; "b.mp4"; "c.mp4"; "a.mp4"] Hlen).
Defined.

Lemma chain_spec_compose (build : pyobj -> pyobj -> transition -> result pyobj)
      (transitions : option (list transition)) (inputs : list stream) :
  (2 <= length inputs)%nat ->
  chain build transitions inputs
  = spec_compose build (default [] transitions) inputs.
Proof.
  intros Hlen. destruct inputs as [|a [|b rest]]; cbn in Hlen; try lia.
  unfold chain, spec_compose. destruct rest as [|c rest].
  - cbn [length Nat.eqb]. rewrite selection_first. reflexivity.
  - cbn [length Nat.eqb index lookup list_lookup rbind drop].
    apply chain_loop_spec.
Qed.

Lemma spec_transition_at_take (ts : list transition) (k i : nat) :
  (1 <= i <= k)%nat -> (k <= length ts)%nat ->
  spec_transition_at (take k ts) i = spec_transition_at ts i.
Proof.
  intros Hi Hk. unfold spec_transition_at.
  destruct ts as [|t ts]; [cbn in Hk; lia|].
  destruct k as [|k]; [lia|]. cbn [take].
  change (t :: take k ts) with (take (S k) (t :: ts)).
  rewrite !nth_lookup, length_take_le by exact Hk.
  replace (Nat.min (i - 1) (S k - 1)) with (i - 1)%nat by lia.
  replace (Nat.min (i - 1) (length (t :: ts) - 1)) with (i - 1)%nat by lia.
  rewrite lookup_take_lt by lia. reflexivity.
Qed.

Lemma fold_spec_step_ext (build : pyobj -> pyobj -> transition -> result pyobj)
      (ts ts' : list transition) (gaps : list (stream * nat)) :
  Forall (fun gap => spec_transition_at ts (snd gap)
                     = spec_transition_at ts' (snd gap)) gaps ->
  forall acc,
    fold_left (spec_step build ts) gaps acc
    = fold_left (spec_step build ts') gaps acc.
Proof.
  induction 1 as [|gap gaps Hgap _ IH]; intros acc; [reflexivity|].
  cbn [fold_left]. unfold spec_step at 2 4. rewrite Hgap. apply IH.
Qed.

Lemma zip_seq_bounds (rest : list stream) :
  forall k, Forall (fun gap : stream * nat =>
                      (k <= snd gap < k + length rest)%nat)
                   (zip rest (seq k (length rest))).
Proof.
  induction rest as [|x rest IH]; intros k; [constructor|].
  cbn [length seq zip zip_with]. constructor; [cbn; lia|].
  eapply Forall_impl; [apply (IH (S k))|]. cbn. intros gap Hgap. lia.
Qed.

(** X2. Transitions beyond the last gap are never read: with [N] clips, only
    the first [N - 1] transitions of a longer list matter. *)
Theorem surplus_transitions_ignored
        (build : pyobj -> pyobj -> transition -> result pyobj)
        (ts : list transition) (inputs : list stream) :
  (2 <= length inputs)%nat ->
  (length inputs - 1 <= length ts)%nat ->
  chain build (Some ts) inputs
  = chain build (Some (take (length inputs - 1) ts)) inputs.
Proof.
  intros Hlen Hts. rewrite !chain_spec_compose by exact Hlen.
  cbn [default from_option id]. unfold spec_compose.
  destruct inputs as [|first rest]; [reflexivity|].
  cbn [length] in *. replace (S (length rest) - 1)%nat with (length rest)
    in * by lia.
  apply fold_spec_step_ext.
  eapply Forall_impl; [apply (zip_seq_bounds rest 1)|].
  intros gap Hgap. cbn beta in Hgap. symmetry.
  apply spec_transition_at_take; lia.
Qed.

Lemma surplus_transitions_ignored_witness :
  chain (_apply_transition Demo.probe)
        (Some [Demo.fade 2; Demo.crossfade 1; Demo.bounce])
        [input "a.mp4" []; input "b.mp4" []]
  = chain (_apply_transition Demo.probe)
          (Some (take (length [input "a.mp4" []; input "b.mp4" []] - 1)
                      [Demo.fade 2; Demo.crossfade 1; Demo.bounce]))
          [input "a.mp4" []; input "b.mp4" []].
Proof.
  assert (Hlen : (2 <= length [input "a.mp4" []; input "b.mp4" []])%nat)
    by (cbn; lia).
  assert (Hts : (length [input "a.mp4" []; input "b.mp4" []] - 1
                 <= length [Demo.fade 2; Demo.crossfade 1; Demo.bounce])%nat)
    by (cbn; lia).
  exact (surplus_transitions_ignored (_apply_transition Demo.probe)
           [Demo.fade 2; Demo.crossfade 1; Demo.bounce]
           [input "a.mp4" []; input "b.mp4" []] Hlen Hts).
Defined.


(** ** The job: traces and files *)

Section JobProperties.

Variable probe : string -> option Q.
Variable LOCAL_STORAGE_PATH : string.
Variable os_path_join : string -> string -> string.
Variable os_path_abspath : string -> string.
Variable download_file_result : string -> string -> result string.
Variable ffmpeg_exec : output_node -> run_outcome.

Local Abbreviation downloads :=
  (download_all LOCAL_STORAGE_PATH os_path_join download_file_result).
Local Abbreviation job :=
  (process_video_concatenate probe LOCAL_STORAGE_PATH os_path_join
     os_path_abspath download_file_result ffmpeg_exec).

Lemma download_all_cons (job_id : string) (m : media_item)
      (urls : list media_item) (i : nat) (acc : list string) (w : world) :
  let ev := EvDownload (video_url m)
              (os_path_join LOCAL_STORAGE_PATH
                 (job_id +:+ "_input_" +:+ str i)) in
  downloads job_id i (m :: urls) acc w
  = match download_file_result (video_url m)
            (os_path_join LOCAL_STORAGE_PATH (job_id +:+ "_input_" +:+ str i))
    with
    | Ok path =>
        downloads job_id (S i) urls (acc ++ [path])
                  (World (files w ∪ {[path]}) (trace w ++ [ev]))
    | Err e => (Err e, log ev w)
    end.
Proof.
  cbn [download_all]. unfold bind, download_file.
  destruct (download_file_result _ _); reflexivity.
Qed.

Lemma download_all_spec (job_id : string) (media_urls : list media_item) :
  forall (i : nat) (acc : list string) (w : world),
  exists dl,
    trace (snd (downloads job_id i media_urls acc w)) = trace w ++ dl
    /\ Forall (fun ev => is_download ev = true) dl
    /\ forall fs, fst (downloads job_id i media_urls acc w) = Ok fs ->
                  length fs = (length acc + length media_urls)%nat.
Proof.
  induction media_urls as [|m urls IH]; intros i acc w.
  - exists []. cbn. rewrite app_nil_r.
    repeat split; [constructor|]. intros fs [= <-]. lia.
  - rewrite download_all_cons.
    destruct (download_file_result _ _) as [path|e].
    + destruct (IH (S i) (acc ++ [path])
                   (World (files w ∪ {[path]})
                      (trace w ++ [EvDownload (video_url m)
                         (os_path_join LOCAL_STORAGE_PATH
                            (job_id +:+ "_input_" +:+ str i))])))
        as (dl & Htr & Hdl & Hlen).
      exists (EvDownload (video_url m)
                (os_path_join LOCAL_STORAGE_PATH
                   (job_id +:+ "_input_" +:+ str i)) :: dl).
      rewrite Htr. cbn [trace]. rewrite <- app_assoc. cbn [app].
      repeat split; [constructor; [reflexivity|exact Hdl]|].
      intros fs Hfs. rewrite (Hlen fs Hfs), length_app. cbn. lia.
    + eexists [_]. cbn [snd fst log trace]. repeat split.
      * constructor; [reflexivity|constructor].
      * discriminate.
Qed.

Lemma os_remove_spec (path : string) (w : world) :
  (fst (os_remove path w) = Ok tt
   /\ files (snd (os_remove path w)) = files w ∖ {[path]}
   /\ trace (snd (os_remove path w)) = trace w ++ [EvRemove path])
  \/ (is_ok (fst (os_remove path w)) = false /\ snd (os_remove path w) = w).
Proof.
  unfold os_remove. destruct (bool_decide _); [left|right]; repeat split.
Qed.

Lemma remove_all_trace (input_files : list string) :
  forall w, exists rm,
    trace (snd (remove_all input_files w)) = trace w ++ rm
    /\ Forall (fun ev => is_remove ev = true) rm.
Proof.
  induction input_files as [|f fs IH]; intros w.
  - exists []. cbn. rewrite app_nil_r. split; constructor.
  - cbn [remove_all]. unfold bind.
    destruct (os_remove_spec f w) as [(Hr & _ & Ht)|(Hr & Hw)];
      destruct (os_remove f w) as [[[]|e] w1]; cbn [fst snd] in *;
      try discriminate.
    + destruct (IH w1) as (rm & Hrm & Hall).
      exists (EvRemove f :: rm). rewrite Hrm, Ht, <- app_assoc.
      split; [reflexivity|constructor; [reflexivity|exact Hall]].
    + subst w1. exists []. rewrite app_nil_r. split; constructor.
Qed.


Lemma run_trace (plan : output_node) (w : world) :
  trace (snd (run ffmpeg_exec plan w)) = trace w ++ [EvRun plan true].
Proof.
  unfold run. destruct (ffmpeg_exec plan); try reflexivity.
  destruct (kw_get "filename" (out_kwargs plan)) as [[]|]; reflexivity.
Qed.

(** What [_concatenate_simple] does to the trace: it writes the concat
    list, runs the copy plan on it, and at most removes the list again. *)
Lemma concatenate_simple_trace (input_files : list string)
      (output_path job_id : string) (w : world) :
  let concat_file_path :=
    os_path_join LOCAL_STORAGE_PATH (job_id +:+ "_concat_list.txt") in
  let plan :=
    output [input concat_file_path
                  [("format", VStr "concat"); ("safe", VInt 0)]]
           output_path [("c", VStr "copy")] in
  let r := _concatenate_simple LOCAL_STORAGE_PATH os_path_join os_path_abspath
             ffmpeg_exec input_files output_path job_id w in
  exists rm,
    trace (snd r)
    = trace w
      ++ EvWrite concat_file_path (concat_list_text os_path_abspath input_files)
      :: EvRun plan true :: rm
    /\ Forall (fun ev => is_remove ev = true) rm.
Proof.
  intros concat_file_path plan r. subst r. unfold _concatenate_simple.
  fold concat_file_path. fold plan. unfold bind at 1. unfold write_file.
  set (w1 := log _ _).
  unfold bind. pose proof (run_trace plan w1) as Hrun.
  destruct (run ffmpeg_exec plan w1) as [[[]|e] w2]; cbn [snd] in *.
  - destruct (os_remove_spec concat_file_path w2) as [(_ & _ & Ht)|(_ & Hw)].
    + exists [EvRemove concat_file_path]. rewrite Ht, Hrun. subst w1.
      cbn [log trace]. rewrite <- !app_assoc. cbn [app].
      split; [reflexivity|repeat constructor].
    + exists []. rewrite Hw, Hrun. subst w1.
      cbn [log trace]. rewrite <- !app_assoc. cbn [app].
      split; [reflexivity|constructor].
  - exists []. rewrite Hrun. subst w1.
    cbn [log trace]. rewrite <- !app_assoc. cbn [app].
    split; [reflexivity|constructor].
Qed.

(** C4: when [transitions] is absent or empty, whatever the number of
    clips, the job takes the copy path.  Once the inputs are downloaded, the
    first things it does are to write the concat list, one [file '<absolute
    path>'] line per input, and to run the engine on that list with
    [c='copy']; the plan holds the concat-list input and no filter node, and
    all the job does afterwards is remove files. *)
Theorem no_transitions_copy_plan (media_urls : list media_item)
        (job_id : string) (webhook_url : option string)
        (transitions : option (list transition)) (w : world) :
  transitions_given transitions = false ->
  forall input_files w1,
    downloads job_id 0%nat media_urls [] w = (Ok input_files, w1) ->
    let concat_file_path :=
      os_path_join LOCAL_STORAGE_PATH (job_id +:+ "_concat_list.txt") in
    let output_path := os_path_join LOCAL_STORAGE_PATH (job_id +:+ ".mp4") in
    let plan :=
      output [input concat_file_path
                    [("format", VStr "concat"); ("safe", VInt 0)]]
             output_path [("c", VStr "copy")] in
    let text :=
      foldr (fun f rest =>
               ("file '" +:+ os_path_abspath f +:+ "'" +:+ newline) +:+ rest)
            EmptyString input_files in
    exists rm,
      trace (snd (job media_urls job_id webhook_url transitions w))
      = trace w1 ++ EvWrite concat_file_path text :: EvRun plan true :: rm
      /\ Forall (fun ev => is_remove ev = true) rm
      /\ forallb (fun s => is_input_node (fst s)) (out_streams plan) = true
      /\ kw_get "c" (out_kwargs plan) = Some (VStr "copy").
Proof.
  intros Hg input_files w1 Hdl concat_file_path output_path plan text.
  assert (Htext : text = concat_list_text os_path_abspath input_files).
  { subst text. induction input_files as [|f fs IH]; [reflexivity|].
    cbn [foldr concat_list_text]. f_equal. }
  unfold process_video_concatenate.
  unfold bind at 1. rewrite Hdl, Hg. unfold bind at 1.
  destruct (concatenate_simple_trace input_files output_path job_id w1)
    as (rm & Htr & Hrm).
  fold concat_file_path in Htr. fold plan in Htr. rewrite <- Htext in Htr.
  destruct (_concatenate_simple _ _ _ _ _ _ _ w1) as [[[]|e] w2];
    cbn [snd] in Htr.
  - unfold bind at 1.
    destruct (remove_all_trace input_files w2) as (rm' & Htr' & Hrm').
    destruct (remove_all input_files w2) as [[[]|e] w3]; cbn [snd] in Htr'.
    + exists (rm ++ rm'). unfold bind, os_path_exists.
      split; [|split; [apply Forall_app; split; assumption|split; reflexivity]].
      destruct (negb _); cbn [snd raise ret];
        rewrite Htr', Htr, <- app_assoc; reflexivity.
    + exists (rm ++ rm'). cbn [snd].
      split; [|split; [apply Forall_app; split; assumption|split; reflexivity]].
      rewrite Htr', Htr, <- app_assoc. reflexivity.
  - exists rm. cbn [snd]. repeat split; assumption.
Qed.

(** C6: with a non-empty [transitions] and fewer than two clips, the
    composer raises [ValueError("At least 2 videos are required for
    transitions")] before it builds anything, and the job fails having only
    downloaded: the engine is never run. *)
Theorem too_few_clips_for_transitions (media_urls : list media_item)
        (job_id : string) (webhook_url : option string)
        (transitions : option (list transition)) (w : world) :
  transitions_given transitions = true ->
  (length media_urls < 2)%nat ->
  (forall input_files output_path w0,
      (length input_files < 2)%nat ->
      _concatenate_with_transitions probe ffmpeg_exec input_files output_path
                                    transitions w0
      = (Err (ValueError "At least 2 videos are required for transitions"),
         w0))
  /\ exists e dl,
       fst (job media_urls job_id webhook_url transitions w) = Err e
       /\ trace (snd (job media_urls job_id webhook_url transitions w))
          = trace w ++ dl
       /\ Forall (fun ev => is_download ev = true) dl
       /\ (is_ok (fst (downloads job_id 0%nat media_urls [] w)) = true ->
           e = ValueError "At least 2 videos are required for transitions").
Proof.
  intros Hg Hlen.
  assert (Hraise : forall input_files output_path w0,
             (length input_files < 2)%nat ->
             _concatenate_with_transitions probe ffmpeg_exec input_files
               output_path transitions w0
             = (Err (ValueError
                       "At least 2 videos are required for transitions"), w0)).
  { intros input_files output_path w0 Hfew.
    unfold _concatenate_with_transitions.
    destruct (Nat.ltb_lt (length input_files) 2) as [_ Hlt].
    rewrite (Hlt Hfew). reflexivity. }
  split; [exact Hraise|].
  destruct (download_all_spec job_id media_urls 0%nat [] w)
    as (dl & Htr & Hdl & Hcount).
  unfold process_video_concatenate, bind. rewrite Hg.
  destruct (downloads job_id 0%nat media_urls [] w) as [[fs|e] w1];
    cbn [fst snd] in *.
  - rewrite Hraise by (rewrite (Hcount fs eq_refl); cbn; lia).
    eexists _, dl. cbn [fst snd].
    split; [reflexivity|]. split; [exact Htr|]. split; [exact Hdl|reflexivity].
  - exists e, dl. cbn [fst snd].
    split; [reflexivity|]. split; [exact Htr|]. split; [exact Hdl|discriminate].
Qed.


(** ** Further properties of the job *)

Lemma os_remove_present (path : string) (w : world) :
  path ∈ files w ->
  os_remove path w
  = (Ok tt, World (files w ∖ {[path]}) (trace w ++ [EvRemove path])).
Proof.
  intros Hin. unfold os_remove. rewrite bool_decide_eq_true_2 by exact Hin.
  reflexivity.
Qed.

Lemma remove_all_present (input_files : list string) :
  forall w,
    NoDup input_files ->
    (forall f, f ∈ input_files -> f ∈ files w) ->
    remove_all input_files w
    = (Ok tt, World (files w ∖ list_to_set input_files)
                    (trace w ++ map EvRemove input_files)).
Proof using Type.
  induction input_files as [|f fs IH]; intros w Hnd Hin.
  - cbn. rewrite app_nil_r, difference_empty_L. destruct w; reflexivity.
  - apply NoDup_cons in Hnd as [Hf Hnd].
    cbn [remove_all]. unfold bind.
    rewrite os_remove_present by (apply Hin; left).
    rewrite IH; [|exact Hnd|].
    + cbn [files trace map list_fmap fmap]. rewrite <- app_assoc. cbn [app].
      rewrite list_to_set_cons, difference_difference_l_L. reflexivity.
    + intros g Hg. cbn [files]. apply elem_of_difference. split.
      * apply Hin. right. exact Hg.
      * intros Heq. apply elem_of_singleton in Heq. subst g. contradiction.
Qed.

Lemma download_all_files (job_id : string) (media_urls : list media_item) :
  forall (i : nat) (acc : list string) (w : world),
    files w ⊆ files (snd (downloads job_id i media_urls acc w))
    /\ forall fs, fst (downloads job_id i media_urls acc w) = Ok fs ->
         forall f, f ∈ fs ->
                   f ∈ acc
                   \/ f ∈ files (snd (downloads job_id i media_urls acc w)).
Proof.
  induction media_urls as [|m urls IH]; intros i acc w.
  - cbn. split; [reflexivity|]. intros fs [= <-] f Hf. left. exact Hf.
  - rewrite download_all_cons.
    destruct (download_file_result _ _) as [path|e].
    + destruct (IH (S i) (acc ++ [path])
                   (World (files w ∪ {[path]})
                      (trace w ++ [EvDownload (video_url m)
                         (os_path_join LOCAL_STORAGE_PATH
                            (job_id +:+ "_input_" +:+ str i))])))
        as [Hsub Hfs].
      cbn [files] in Hsub. split.
      * intros x Hx. apply Hsub. apply elem_of_union. left. exact Hx.
      * intros fs Hok f Hf. destruct (Hfs fs Hok f Hf) as [Hacc|Hin];
          [|right; exact Hin].
        apply elem_of_app in Hacc as [Hacc|Hp]; [left; exact Hacc|].
        right. apply Hsub. apply list_elem_of_singleton in Hp. subst f.
        apply elem_of_union. right. apply elem_of_singleton. reflexivity.
    + cbn [fst snd log files]. split; [reflexivity|]. discriminate.
Qed.

Lemma no_run_among_downloads (l : list event) :
  Forall (fun ev => is_download ev = true) l -> List.filter is_run l = [].
Proof.
  induction 1 as [|ev l Hev _ IH]; [reflexivity|].
  cbn [List.filter]. destruct ev; try discriminate Hev. exact IH.
Qed.

Lemma no_run_among_removes (l : list event) :
  Forall (fun ev => is_remove ev = true) l -> List.filter is_run l = [].
Proof.
  induction 1 as [|ev l Hev _ IH]; [reflexivity|].
  cbn [List.filter]. destruct ev; try discriminate Hev. exact IH.
Qed.

Lemma concatenate_with_transitions_trace (input_files : list string)
      (output_path : string) (transitions : option (list transition))
      (w : world) :
  let r := _concatenate_with_transitions probe ffmpeg_exec input_files
             output_path transitions w in
  (is_ok (fst r) = false /\ snd r = w)
  \/ (exists plan, trace (snd r) = trace w ++ [EvRun plan true]).
Proof.
  cbn zeta. unfold _concatenate_with_transitions.
  destruct (Nat.ltb _ _); [left; split; reflexivity|].
  unfold bind, lift.
  destruct (chain _ _ _) as [[s|v a]|e].
  - right. eexists. apply run_trace.
  - right. eexists. apply run_trace.
  - left. split; reflexivity.
Qed.

(** The concatenation step of the job, on either path, adds to the trace a
    stretch with at most one engine run, and with exactly one when the step
    returns. *)
Lemma concatenation_step_runs (input_files : list string)
      (output_path job_id : string) (transitions : option (list transition))
      (w : world) :
  let r := (if transitions_given transitions
            then _concatenate_with_transitions probe ffmpeg_exec input_files
                   output_path transitions
            else _concatenate_simple LOCAL_STORAGE_PATH os_path_join
                   os_path_abspath ffmpeg_exec input_files output_path job_id)
             w in
  exists mid,
    trace (snd r) = trace w ++ mid
    /\ (length (List.filter is_run mid) <= 1)%nat
    /\ (is_ok (fst r) = true -> length (List.filter is_run mid) = 1%nat).
Proof.
  cbn zeta. destruct (transitions_given transitions).
  - destruct (concatenate_with_transitions_trace input_files output_path
                transitions w) as [[Hfail Hw]|[plan Htr]].
    + exists []. rewrite Hw, app_nil_r. split; [reflexivity|].
      split; [cbn; lia|]. rewrite Hfail. discriminate.
    + exists [EvRun plan true]. split; [exact Htr|]. split; [cbn; lia|].
      reflexivity.
  - destruct (concatenate_simple_trace input_files output_path job_id w)
      as (rm & Htr & Hrm).
    eexists. split; [exact Htr|].
    cbn [List.filter is_run]. rewrite (no_run_among_removes rm Hrm).
    split; [cbn; lia|reflexivity].
Qed.

(** X9. Whatever happens, a job starts the engine at most once. *)
Theorem job_runs_engine_at_most_once (media_urls : list media_item)
        (job_id : string) (webhook_url : option string)
        (transitions : option (list transition)) (w : world) :
  exists delta,
    trace (snd (job media_urls job_id webhook_url transitions w))
    = trace w ++ delta
    /\ (length (List.filter is_run delta) <= 1)%nat.
Proof.
  unfold process_video_concatenate. unfold bind at 1.
  destruct (download_all_spec job_id media_urls 0%nat [] w)
    as (dl & Hdl & Hall & _).
  destruct (downloads job_id 0%nat media_urls [] w) as [[fs|e] w1];
    cbn [snd] in Hdl.
  - unfold bind at 1.
    destruct (concatenation_step_runs fs
                (os_path_join LOCAL_STORAGE_PATH (job_id +:+ ".mp4"))
                job_id transitions w1) as (mid & Hmid & Hle & _).
    cbn zeta in Hmid.
    match type of Hmid with
    | trace (snd ?step) = _ => destruct step as [[[]|e] w2]
    end; cbn [snd] in Hmid.
    + unfold bind at 1.
      destruct (remove_all_trace fs w2) as (rm & Hrm & Hallrm).
      assert (Hw3 : forall r3 w3, remove_all fs w2 = (r3, w3) ->
                trace w3 = trace w ++ (dl ++ mid ++ rm)).
      { intros r3 w3 Heq. rewrite Heq in Hrm. cbn [snd] in Hrm.
        rewrite Hrm, Hmid, Hdl, <- !app_assoc. reflexivity. }
      assert (Hcount : (length (List.filter is_run (dl ++ mid ++ rm)) <= 1)%nat).
      { rewrite !List.filter_app, (no_run_among_downloads dl Hall),
          (no_run_among_removes rm Hallrm), app_nil_r. exact Hle. }
      exists (dl ++ mid ++ rm). split; [|exact Hcount].
      destruct (remove_all fs w2) as [[[]|e] w3]; cbn [snd].
      * unfold bind, os_path_exists.
        destruct (negb _); cbn [snd raise ret]; exact (Hw3 _ _ eq_refl).
      * exact (Hw3 _ _ eq_refl).
    + exists (dl ++ mid). cbn [snd]. split.
      * rewrite Hmid, Hdl, <- app_assoc. reflexivity.
      * rewrite List.filter_app, (no_run_among_downloads dl Hall). exact Hle.
  - exists dl. cbn [snd]. split; [exact Hdl|].
    rewrite (no_run_among_downloads dl Hall). cbn. lia.
Qed.

(** X10. A job that returns gives back [LOCAL_STORAGE_PATH/<job_id>.mp4], that
    file is on disk at that moment, and the engine has been started exactly
    once. *)
Theorem job_returns_existing_output (media_urls : list media_item)
        (job_id : string) (webhook_url : option string)
        (transitions : option (list transition)) (w w' : world)
        (returned : string) :
  job media_urls job_id webhook_url transitions w = (Ok returned, w') ->
  returned = os_path_join LOCAL_STORAGE_PATH (job_id +:+ ".mp4")
  /\ returned ∈ files w'
  /\ exists delta,
       trace w' = trace w ++ delta
       /\ length (List.filter is_run delta) = 1%nat.
Proof.
  unfold process_video_concatenate. unfold bind at 1.
  destruct (download_all_spec job_id media_urls 0%nat [] w)
    as (dl & Hdl & Hall & _).
  destruct (downloads job_id 0%nat media_urls [] w) as [[fs|e] w1];
    [|discriminate].
  cbn [snd] in Hdl. unfold bind at 1.
  destruct (concatenation_step_runs fs
              (os_path_join LOCAL_STORAGE_PATH (job_id +:+ ".mp4"))
              job_id transitions w1) as (mid & Hmid & _ & Hone).
  cbn zeta in Hmid, Hone.
  match type of Hmid with
  | trace (snd ?step) = _ => destruct step as [[[]|e] w2]
  end; [|discriminate].
  cbn [fst snd] in Hmid, Hone. unfold bind at 1.
  destruct (remove_all_trace fs w2) as (rm & Hrm & Hallrm).
  destruct (remove_all fs w2) as [[[]|e] w3]; [|discriminate].
  cbn [snd] in Hrm. unfold bind, os_path_exists.
  destruct (bool_decide _) eqn:Hex; cbn [negb]; [|discriminate].
  intros [= <- <-]. split; [reflexivity|].
  split; [exact (bool_decide_eq_true_1 _ Hex)|].
  exists (dl ++ mid ++ rm). split.
  - rewrite Hrm, Hmid, Hdl, <- !app_assoc. reflexivity.
  - rewrite !List.filter_app, (no_run_among_downloads dl Hall),
      (no_run_among_removes rm Hallrm), app_nil_r.
    exact (Hone eq_refl).
Qed.

(** X8. When [_concatenate_simple] returns, the engine did not raise, the
    concat list it wrote has been removed again and nothing else has: the
    files on disk are those from before, plus the output if the engine
    wrote it, minus the list; it wrote the list, ran the copy plan once and
    removed the list, in that order. *)
Theorem concatenate_simple_returns_clean (input_files : list string)
        (output_path job_id : string) (w w' : world) :
  let concat_file_path :=
    os_path_join LOCAL_STORAGE_PATH (job_id +:+ "_concat_list.txt") in
  let plan :=
    output [input concat_file_path
                  [("format", VStr "concat"); ("safe", VInt 0)]]
           output_path [("c", VStr "copy")] in
  _concatenate_simple LOCAL_STORAGE_PATH os_path_join os_path_abspath
    ffmpeg_exec input_files output_path job_id w = (Ok tt, w') ->
  (forall e, ffmpeg_exec plan <> RunFails e)
  /\ (concat_file_path ∉ files w')
  /\ files w'
     = (files w ∪ {[concat_file_path]}
        ∪ match ffmpeg_exec plan with
          | RunWrites => {[output_path]}
          | _ => ∅
          end) ∖ {[concat_file_path]}
  /\ trace w'
     = trace w
       ++ [EvWrite concat_file_path
                   (concat_list_text os_path_abspath input_files);
           EvRun plan true; EvRemove concat_file_path].
Proof.
  intros concat_file_path plan. unfold _concatenate_simple.
  fold concat_file_path. fold plan.
  unfold bind, write_file, run.
  destruct (ffmpeg_exec plan) as [e| |]; [discriminate| |].
  - change (kw_get "filename" (out_kwargs plan)) with (Some (VStr output_path)).
    cbv iota. rewrite os_remove_present.
    + intros [= <-]. cbn [files trace log]. split; [discriminate|].
      split; [intros Hin; apply elem_of_difference in Hin as [_ Hne];
              apply Hne, elem_of_singleton; reflexivity|].
      split; [reflexivity|]. rewrite <- !app_assoc. reflexivity.
    + cbn [files log]. apply elem_of_union. left.
      apply elem_of_union. right. apply elem_of_singleton. reflexivity.
  - rewrite os_remove_present.
    + intros [= <-]. cbn [files trace log]. split; [discriminate|].
      split; [intros Hin; apply elem_of_difference in Hin as [_ Hne];
              apply Hne, elem_of_singleton; reflexivity|].
      split; [rewrite union_empty_r_L; reflexivity|].
      rewrite <- !app_assoc. reflexivity.
    + cbn [files log]. apply elem_of_union. right.
      apply elem_of_singleton. reflexivity.
Qed.

Lemma failing_engine_step (input_files : list string)
      (output_path job_id : string) (transitions : option (list transition))
      (w : world) :
  (forall plan, exists e, ffmpeg_exec plan = RunFails e) ->
  let r := (if transitions_given transitions
            then _concatenate_with_transitions probe ffmpeg_exec input_files
                   output_path transitions
            else _concatenate_simple LOCAL_STORAGE_PATH os_path_join
                   os_path_abspath ffmpeg_exec input_files output_path job_id)
             w in
  is_ok (fst r) = false
  /\ files w ⊆ files (snd r)
  /\ exists mid,
       trace (snd r) = trace w ++ mid
       /\ Forall (fun ev => is_remove ev = false) mid.
Proof.
  intros Hfail. cbn zeta. destruct (transitions_given transitions).
  - unfold _concatenate_with_transitions.
    destruct (Nat.ltb _ _).
    { split; [reflexivity|]. split; [reflexivity|].
      exists []. rewrite app_nil_r. split; [reflexivity|constructor]. }
    unfold bind, lift.
    destruct (chain _ _ _) as [[s|v a]|e]; unfold run.
    + destruct (Hfail (output [s] output_path [])) as [e He]. rewrite He.
      split; [reflexivity|]. split; [reflexivity|].
      eexists [_]. split; [reflexivity|repeat constructor].
    + destruct (Hfail (output [v; a] output_path [])) as [e He]. rewrite He.
      split; [reflexivity|]. split; [reflexivity|].
      eexists [_]. split; [reflexivity|repeat constructor].
    + split; [reflexivity|]. split; [reflexivity|].
      exists []. rewrite app_nil_r. split; [reflexivity|constructor].
  - unfold _concatenate_simple, bind, write_file, run.
    match goal with
    | |- context [ffmpeg_exec ?p] => destruct (Hfail p) as [e He]; rewrite He
    end.
    cbn [fst snd log files trace]. split; [reflexivity|].
    split; [apply union_subseteq_l|].
    eexists [_; _]. rewrite <- app_assoc. split; [reflexivity|].
    repeat constructor.
Qed.

(** X11. When the engine raises, the job raises too and removes nothing: every
    file that was on disk, and every input it downloaded, is still
    there. *)
Theorem engine_failure_removes_nothing (media_urls : list media_item)
        (job_id : string) (webhook_url : option string)
        (transitions : option (list transition)) (w : world) :
  (forall plan, exists e, ffmpeg_exec plan = RunFails e) ->
  let r := job media_urls job_id webhook_url transitions w in
  is_ok (fst r) = false
  /\ files w ⊆ files (snd r)
  /\ (forall fs, fst (downloads job_id 0%nat media_urls [] w) = Ok fs ->
        forall f, f ∈ fs -> f ∈ files (snd r))
  /\ exists delta,
       trace (snd r) = trace w ++ delta
       /\ Forall (fun ev => is_remove ev = false) delta.
Proof.
  intros Hfail r. subst r. unfold process_video_concatenate.
  destruct (download_all_spec job_id media_urls 0%nat [] w)
    as (dl & Hdl & Hall & _).
  destruct (download_all_files job_id media_urls 0%nat [] w) as [Hsub Hfs].
  assert (Hnorm : Forall (fun ev => is_remove ev = false) dl).
  { eapply Forall_impl; [exact Hall|]. intros ev Hev.
    destruct ev; try discriminate Hev. reflexivity. }
  unfold bind.
  destruct (downloads job_id 0%nat media_urls [] w) as [[fs|e] w1];
    cbn [fst snd] in *.
  - destruct (failing_engine_step fs
                (os_path_join LOCAL_STORAGE_PATH (job_id +:+ ".mp4"))
                job_id transitions w1 Hfail) as (Hr & Hfiles & mid & Hmid & Hno).
    cbn zeta in Hr, Hfiles, Hmid.
    match type of Hr with
    | is_ok (fst ?step) = false => destruct step as [[[]|e] w2]
    end; cbn [fst snd] in *; [discriminate Hr|].
    split; [reflexivity|].
    split; [intros x Hx; apply Hfiles, Hsub; exact Hx|].
    split.
    + intros fs' [= <-] f Hf. apply Hfiles.
      destruct (Hfs fs eq_refl f Hf) as [H|H]; [|exact H].
      apply elem_of_nil in H. contradiction.
    + exists (dl ++ mid). split.
      * rewrite Hmid, Hdl, <- app_assoc. reflexivity.
      * apply Forall_app. split; assumption.
  - split; [reflexivity|]. split; [exact Hsub|].
    split; [discriminate|]. exists dl. split; [exact Hdl|exact Hnorm].
Qed.

Lemma downloads_from (fetch : string -> string -> string) (job_id : string)
      (media_urls : list media_item) :
  (forall u d, download_file_result u d = Ok (fetch u d)) ->
  forall (i : nat) (acc : list string) (w : world),
    let dest j :=
      os_path_join LOCAL_STORAGE_PATH (job_id +:+ "_input_" +:+ str (i + j)) in
    let paths := imap (fun j m => fetch (video_url m) (dest j)) media_urls in
    downloads job_id i media_urls acc w
    = (Ok (acc ++ paths),
       World (files w ∪ list_to_set paths)
             (trace w ++ imap (fun j m => EvDownload (video_url m) (dest j))
                              media_urls)).
Proof using Type.
  intros Hfetch. induction media_urls as [|m urls IH]; intros i acc w.
  - cbn. rewrite !app_nil_r, union_empty_r_L. destruct w; reflexivity.
  - cbn zeta. rewrite download_all_cons, Hfetch, IH. cbn zeta.
    rewrite !imap_cons. cbn [files trace list_to_set].
    rewrite Nat.add_0_r, <- !app_assoc. cbn [app].
    rewrite (imap_ext (fun j m0 => fetch (video_url m0)
               (os_path_join LOCAL_STORAGE_PATH
                  (job_id +:+ "_input_" +:+ str (S i + j))))
             ((fun j m0 => fetch (video_url m0)
                 (os_path_join LOCAL_STORAGE_PATH
                    (job_id +:+ "_input_" +:+ str (i + j)))) ∘ S) urls)
      by (intros j x _; cbn; rewrite Nat.add_succ_r; reflexivity).
    rewrite (imap_ext (fun j m0 => EvDownload (video_url m0)
               (os_path_join LOCAL_STORAGE_PATH
                  (job_id +:+ "_input_" +:+ str (S i + j))))
             ((fun j m0 => EvDownload (video_url m0)
                 (os_path_join LOCAL_STORAGE_PATH
                    (job_id +:+ "_input_" +:+ str (i + j)))) ∘ S) urls)
      by (intros j x _; cbn; rewrite Nat.add_succ_r; reflexivity).
    rewrite <- (assoc_L (∪)). reflexivity.
Qed.

(** X12. When no download fails, the inputs are fetched in the order of
    [media_urls], the [i]-th (from 0) under the prefix
    [LOCAL_STORAGE_PATH/<job_id>_input_<i>]; the job works on the names the
    fetcher returned, in that order, and those files are then on disk. *)
Theorem downloads_in_order (fetch : string -> string -> string)
        (job_id : string) (media_urls : list media_item) (w : world) :
  (forall u d, download_file_result u d = Ok (fetch u d)) ->
  let dest i :=
    os_path_join LOCAL_STORAGE_PATH (job_id +:+ "_input_" +:+ str i) in
  let paths := imap (fun i m => fetch (video_url m) (dest i)) media_urls in
  downloads job_id 0%nat media_urls [] w
  = (Ok paths,
     World (files w ∪ list_to_set paths)
           (trace w ++ imap (fun i m => EvDownload (video_url m) (dest i))
                            media_urls)).
Proof using Type.
  intros Hfetch. exact (downloads_from fetch job_id media_urls Hfetch 0%nat [] w).
Qed.

(** X13. An engine that exits without writing the output costs the inputs: on
    the copy path, with distinct input files, the job first removes the
    concat list and every input, and only then raises [FileNotFoundError]
    for the missing output. *)
Theorem missing_output_found_after_cleanup (media_urls : list media_item)
        (job_id : string) (webhook_url : option string)
        (transitions : option (list transition)) (w w1 : world)
        (input_files : list string) :
  let concat_file_path :=
    os_path_join LOCAL_STORAGE_PATH (job_id +:+ "_concat_list.txt") in
  let output_path := os_path_join LOCAL_STORAGE_PATH (job_id +:+ ".mp4") in
  let plan :=
    output [input concat_file_path
                  [("format", VStr "concat"); ("safe", VInt 0)]]
           output_path [("c", VStr "copy")] in
  transitions_given transitions = false ->
  downloads job_id 0%nat media_urls [] w = (Ok input_files, w1) ->
  NoDup input_files ->
  concat_file_path ∉ input_files ->
  output_path ∉ files w1 ->
  ffmpeg_exec plan = RunWritesNothing ->
  let r := job media_urls job_id webhook_url transitions w in
  fst r = Err FileNotFoundError
  /\ (forall f, f ∈ input_files -> f ∉ files (snd r))
  /\ trace (snd r)
     = trace w1
       ++ [EvWrite concat_file_path
                   (concat_list_text os_path_abspath input_files);
           EvRun plan true; EvRemove concat_file_path]
       ++ map EvRemove input_files.
Proof.
  intros concat_file_path output_path plan Hg Hdl Hnd Hconcat Hout Hexec r.
  assert (Hon_disk : forall f, f ∈ input_files -> f ∈ files w1).
  { intros f Hf.
    destruct (download_all_files job_id media_urls 0%nat [] w) as [_ Hfs].
    rewrite Hdl in Hfs. cbn [fst snd] in Hfs.
    destruct (Hfs input_files eq_refl f Hf) as [H|H]; [|exact H].
    apply elem_of_nil in H. contradiction. }
  assert (Hsimple :
            _concatenate_simple LOCAL_STORAGE_PATH os_path_join os_path_abspath
              ffmpeg_exec input_files output_path job_id w1
            = (Ok tt,
               World ((files w1 ∪ {[concat_file_path]}) ∖ {[concat_file_path]})
                     (trace w1
                      ++ [EvWrite concat_file_path
                                  (concat_list_text os_path_abspath input_files);
                          EvRun plan true; EvRemove concat_file_path]))).
  { unfold _concatenate_simple. fold concat_file_path. fold plan.
    unfold bind, write_file, run. rewrite Hexec.
    rewrite os_remove_present.
    - cbn [files trace log]. rewrite <- !app_assoc. reflexivity.
    - cbn [files log]. apply elem_of_union. right.
      apply elem_of_singleton. reflexivity. }
  subst r. unfold process_video_concatenate. fold output_path.
  unfold bind. rewrite Hdl, Hg, Hsimple.
  rewrite remove_all_present; [|exact Hnd|].
  - unfold os_path_exists. cbn [files trace].
    rewrite bool_decide_eq_false_2.
    + cbn [negb raise fst snd files trace]. split; [reflexivity|].
      split; [|rewrite <- !app_assoc; reflexivity].
      intros f Hf Hin. apply elem_of_difference in Hin as [_ Hnot].
      apply Hnot. apply elem_of_list_to_set. exact Hf.
    + intros Hin. apply elem_of_difference in Hin as [Hin _].
      apply elem_of_difference in Hin as [Hin Hne].
      apply elem_of_union in Hin as [Hin|Hin]; [exact (Hout Hin)|].
      exact (Hne Hin).
  - intros f Hf. cbn [files]. apply elem_of_difference. split.
    + apply elem_of_union. left. exact (Hon_disk f Hf).
    + intros Heq. apply elem_of_singleton in Heq. subst f. exact (Hconcat Hf).
Qed.


End JobProperties.

Lemma no_transitions_copy_plan_witness :
  exists rm,
    trace (snd (Demo.job [MediaItem "x.mp4"] None))
    = [EvDownload "x.mp4" "/tmp/job_input_0";
       EvWrite "/tmp/job_concat_list.txt"
               ("file '/tmp/job_input_0_x.mp4'" +:+ newline);
       EvRun (output [input "/tmp/job_concat_list.txt"
                            [("format", VStr "concat"); ("safe", VInt 0)]]
                     "/tmp/job.mp4" [("c", VStr "copy")]) true]
      ++ rm
    /\ Forall (fun ev => is_remove ev = true) rm.
Proof.
  assert (Hdl : download_all Demo.storage Demo.join Demo.fetch "job" 0%nat
                  [MediaItem "x.mp4"] [] Demo.start
                = (Ok ["/tmp/job_input_0_x.mp4"],
                   snd (download_all Demo.storage Demo.join Demo.fetch "job"
                          0%nat [MediaItem "x.mp4"] [] Demo.start)))
    by (vm_compute; reflexivity).
  destruct (no_transitions_copy_plan Demo.probe Demo.storage Demo.join
              Demo.abspath Demo.fetch Demo.engine [MediaItem "x.mp4"] "job"
              None None Demo.start eq_refl _ _ Hdl) as (rm & Htr & Hrm & _).
  exists rm. split; [exact Htr|exact Hrm].
Defined.

Lemma too_few_clips_for_transitions_witness :
  exists e dl,
    fst (Demo.job [MediaItem "x.mp4"] (Some [Demo.cut])) = Err e
    /\ trace (snd (Demo.job [MediaItem "x.mp4"] (Some [Demo.cut])))
       = trace Demo.start ++ dl
    /\ Forall (fun ev => is_download ev = true) dl.
Proof.
  assert (Hlen : (length [MediaItem "x.mp4"] < 2)%nat) by (cbn; lia).
  destruct (too_few_clips_for_transitions Demo.probe Demo.storage Demo.join
              Demo.abspath Demo.fetch Demo.engine [MediaItem "x.mp4"] "job"
              None (Some [Demo.cut]) Demo.start eq_refl Hlen)
    as (_ & e & dl & He & Htr & Hdl & _).
  exists e, dl. split; [exact He|]. split; [exact Htr|exact Hdl].
Defined.



Lemma job_returns_existing_output_witness :
  "/tmp/job.mp4" ∈ files (snd (Demo.job [MediaItem "x.mp4"] None)).
Proof.
  assert (Hjob : Demo.job [MediaItem "x.mp4"] None
                 = (Ok "/tmp/job.mp4", snd (Demo.job [MediaItem "x.mp4"] None)))
    by (vm_compute; reflexivity).
  exact (proj1 (proj2
    (job_returns_existing_output Demo.probe Demo.storage Demo.join
       Demo.abspath Demo.fetch Demo.engine [MediaItem "x.mp4"] "job" None
       None Demo.start _ "/tmp/job.mp4" Hjob))).
Defined.

Lemma engine_failure_removes_nothing_witness :
  is_ok (fst (process_video_concatenate Demo.probe Demo.storage Demo.join
                Demo.abspath Demo.fetch Faulty.engine_fails
                [MediaItem "x.mp4"] "job" None None Demo.start)) = false.
Proof.
  exact (proj1
    (engine_failure_removes_nothing Demo.probe Demo.storage Demo.join
       Demo.abspath Demo.fetch Faulty.engine_fails [MediaItem "x.mp4"] "job"
       None None Demo.start
       (fun plan => ex_intro _ FFmpegError eq_refl))).
Defined.

Lemma downloads_in_order_witness :
  fst (download_all Demo.storage Demo.join Demo.fetch "job" 0%nat
                    [MediaItem "x.mp4"; MediaItem "y.mp4"] [] Demo.start)
  = Ok ["/tmp/job_input_0_x.mp4"; "/tmp/job_input_1_y.mp4"].
Proof.
  exact (f_equal fst
    (downloads_in_order Demo.storage Demo.join Demo.fetch
       (fun u d => d +:+ "_" +:+ u) "job"
       [MediaItem "x.mp4"; MediaItem "y.mp4"] Demo.start
       (fun u d => eq_refl))).
Defined.

Lemma missing_output_found_after_cleanup_witness :
  fst (process_video_concatenate Demo.probe Demo.storage Demo.join
         Demo.abspath Demo.fetch Faulty.engine_silent
         [MediaItem "x.mp4"] "job" None None Demo.start)
  = Err FileNotFoundError.
Proof.
  assert (Hdl : download_all Demo.storage Demo.join Demo.fetch "job" 0%nat
                  [MediaItem "x.mp4"] [] Demo.start
                = (Ok ["/tmp/job_input_0_x.mp4"],
                   snd (download_all Demo.storage Demo.join Demo.fetch "job"
                          0%nat [MediaItem "x.mp4"] [] Demo.start)))
    by (vm_compute; reflexivity).
  assert (Hnd : NoDup ["/tmp/job_input_0_x.mp4"]) by apply NoDup_singleton.
  assert (Hconcat : Demo.join Demo.storage ("job" +:+ "_concat_list.txt")
                    ∉ ["/tmp/job_input_0_x.mp4"]).
  { intros H. apply list_elem_of_singleton in H. discriminate H. }
  assert (Hout : Demo.join Demo.storage ("job" +:+ ".mp4")
                 ∉ files (snd (download_all Demo.storage Demo.join Demo.fetch
                                 "job" 0%nat [MediaItem "x.mp4"] []
                                 Demo.start))).
  { refine (proj1 (bool_decide_eq_false
              (Demo.join Demo.storage ("job" +:+ ".mp4")
               ∈ files (snd (download_all Demo.storage Demo.join Demo.fetch
                               "job" 0%nat [MediaItem "x.mp4"] []
                               Demo.start)))) _).
    vm_compute. reflexivity. }
  exact (proj1
    (missing_output_found_after_cleanup Demo.probe Demo.storage Demo.join
       Demo.abspath Demo.fetch Faulty.engine_silent [MediaItem "x.mp4"] "job"
       None None Demo.start _ ["/tmp/job_input_0_x.mp4"]
       eq_refl Hdl Hnd Hconcat Hout eq_refl)).
Defined.


Lemma concatenate_simple_returns_clean_witness :
  "/tmp/job_concat_list.txt"
  ∉ files (snd (_concatenate_simple Demo.storage Demo.join Demo.abspath
                  Demo.engine ["a.mp4"; "b.mp4"] "/tmp/job.mp4" "job"
                  Demo.start)).
Proof.
  assert (Hrun : _concatenate_simple Demo.storage Demo.join Demo.abspath
                   Demo.engine ["a.mp4"; "b.mp4"] "/tmp/job.mp4" "job"
                   Demo.start
                 = (Ok tt,
                    snd (_concatenate_simple Demo.storage Demo.join
                           Demo.abspath Demo.engine ["a.mp4"; "b.mp4"]
                           "/tmp/job.mp4" "job" Demo.start)))
    by (vm_compute; reflexivity).
  exact (proj1 (proj2
    (concatenate_simple_returns_clean Demo.storage Demo.join Demo.abspath
       Demo.engine ["a.mp4"; "b.mp4"] "/tmp/job.mp4" "job" Demo.start _
       Hrun))).
Defined.
